(** * ElliptiCBn: the [run_all] wrapper

    A shallow embedding of [src/ElliptiCBn/run_all.py]: the helper
    [_file_check] and the batch driver [run_all], over a model of the
    parts of Python's [str], [os], [os.path] and [pandas] that the file
    calls.  The three functions imported from [.core]
    ([get_macrocycles], [get_ellipticity], [plot_results]) are taken as
    parameters of the development.

    Conventions.
    - The file system is a finite map from path strings to nodes.  Paths
      are compared as written; the directory hierarchy, symbolic links
      and permissions are not modelled, so a call on a path fails only
      because of what is stored at that path.
    - A Python exception is a value of [exn]; a computation that raises
      keeps the file system it had reached. *)

From Stdlib Require Import ZArith QArith Ascii String.
From stdpp Require Import base option list strings gmap.

Local Open Scope Z_scope.
#[local] Set Warnings "-clear-no-such-hyp".

(** ** Python [str] methods used by the source *)

Module PyStr.

(** [s.rfind(c)]: the highest index of [c] in [s], [-1] when absent. *)
Fixpoint rfind (c : ascii) (s : string) : Z :=
  match s with
  | EmptyString => -1
  | String a s' =>
      let r := rfind c s' in
      if 0 <=? r then r + 1
      else if bool_decide (a = c) then 0 else -1
  end.

Fixpoint take (n : nat) (s : string) : string :=
  match n, s with
  | S n', String a s' => String a (take n' s')
  | _, _ => EmptyString
  end.

Fixpoint drop (n : nat) (s : string) : string :=
  match n, s with
  | S n', String _ s' => drop n' s'
  | _, _ => s
  end.

(** [s[:i]] and [s[i:]] for an index [0 <= i]. *)
Definition slice_to (i : Z) (s : string) : string := take (Z.to_nat i) s.
Definition slice_from (i : Z) (s : string) : string := drop (Z.to_nat i) s.

(** [c * n] *)
Fixpoint repeat (c : ascii) (n : nat) : string :=
  match n with
  | O => EmptyString
  | S n' => String c (repeat c n')
  end.

(** [s.rstrip(c)] *)
Fixpoint rstrip (c : ascii) (s : string) : string :=
  match s with
  | EmptyString => EmptyString
  | String a s' =>
      match rstrip c s' with
      | EmptyString =>
          if bool_decide (a = c) then EmptyString else String a EmptyString
      | t => String a t
      end
  end.

(** [s.startswith(c)] and [s.endswith(c)] for a one-character [c]. *)
Definition startswith (c : ascii) (s : string) : bool :=
  match s with
  | String a _ => bool_decide (a = c)
  | EmptyString => false
  end.

Fixpoint endswith (c : ascii) (s : string) : bool :=
  match s with
  | EmptyString => false
  | String a EmptyString => bool_decide (a = c)
  | String _ s' => endswith c s'
  end.

(** [s.split(c)] for a one-character separator. *)
Fixpoint split (c : ascii) (s : string) : list string :=
  match s with
  | EmptyString => [EmptyString]
  | String a s' =>
      if bool_decide (a = c) then EmptyString :: split c s'
      else match split c s' with
           | w :: ws => String a w :: ws
           | [] => [String a EmptyString]
           end
  end.

(** [l[-1]] on the (never empty) result of [split]. *)
Definition last_item (l : list string) : string := List.last l EmptyString.

(** [c in s] *)
Fixpoint contains (c : ascii) (s : string) : bool :=
  match s with
  | EmptyString => false
  | String a s' => bool_decide (a = c) || contains c s'
  end.

Definition newline : string := String (ascii_of_nat 10) EmptyString.

End PyStr.

(** ** The fragment of [pandas] used by the source *)

Module pd.

Inductive cell :=
| CStr (s : string)
| CInt (n : Z)
| CNum (q : Q)
| CNaN.

(** A [DataFrame]: its column labels in order, and its rows in order.
    A row maps a column label to the cell it holds; the row index is left
    out, every table of the source being written with [index=False] or
    built with [ignore_index=True]. *)
Record DataFrame := mkDataFrame {
  columns : list string;
  rows : list (gmap string cell)
}.

(** The cell of a row under a label; a label the row lacks reads as NaN. *)
Definition cell_at (r : gmap string cell) (col : string) : cell :=
  default CNaN (r !! col).

(** [df[col] = v] for a scalar [v]: an existing column is overwritten, a
    new one is added last; the scalar is broadcast to every row. *)
Definition setitem (df : DataFrame) (col : string) (v : cell) : DataFrame :=
  {| columns :=
       if bool_decide (col ∈ columns df) then columns df
       else columns df ++ [col];
     rows := (λ r, <[col := v]> r) <$> rows df |}.

Definition add_columns (acc : list string) (df : DataFrame) : list string :=
  acc ++ filter (λ c, c ∉ acc) (columns df).

(** [pd.concat(dfs, ignore_index=True)]: the rows of the frames one after
    the other, in the order of [dfs], under the union of their columns in
    order of first appearance. *)
Definition concat (dfs : list DataFrame) : DataFrame :=
  {| columns := foldl add_columns [] dfs;
     rows := mjoin (rows <$> dfs) |}.

End pd.

(** ** Exceptions, the file system and the monad of the embedding *)

Inductive exn :=
| ValueError (msg : string)
| FileExistsError (msg : string)
| FileNotFoundError (path : string)
| IsADirectoryError (path : string)
| OtherError (name : string).

Inductive result (A : Type) :=
| Ok (a : A)
| Raise (e : exn).
Arguments Ok {A} a.
Arguments Raise {A} e.

Inductive content :=
| Raw (data : string)
| Xlsx (df : pd.DataFrame)
| Csv (df : pd.DataFrame).

Inductive node :=
| File (c : content)
| Dir.

Definition M (A : Type) : Type := gmap string node → result A * gmap string node.

Definition ret {A} (a : A) : M A := λ fs, (Ok a, fs).

Definition raise {A} (e : exn) : M A := λ fs, (Raise e, fs).

Definition bind {A B} (m : M A) (k : A → M B) : M B :=
  λ fs, match m fs with
        | (Ok a, fs') => k a fs'
        | (Raise e, fs') => (Raise e, fs')
        end.

Definition lift {A} (r : result A) : M A := λ fs, (r, fs).

Declare Scope py_scope.
Delimit Scope py_scope with py.
Notation "x <- c ;; k" := (bind c (λ x, k))
  (at level 100, c at next level, right associativity) : py_scope.
Notation "c ;;; k" := (bind c (λ _, k))
  (at level 100, right associativity) : py_scope.
Local Open Scope py_scope.

(** ** [posixpath] and [os] *)

Module os_path.

Definition sep : ascii := "/"%char.

Definition split (p : string) : string * string :=
  let i := PyStr.rfind sep p + 1 in
  let head := PyStr.slice_to i p in
  let tail := PyStr.slice_from i p in
  let head :=
    if bool_decide (head ≠ EmptyString)
       && bool_decide (head ≠ PyStr.repeat sep (String.length head))
    then PyStr.rstrip sep head
    else head in
  (head, tail).

Definition basename (p : string) : string :=
  let i := PyStr.rfind sep p + 1 in
  PyStr.slice_from i p.

(** [os.path.join(a, b)] with one component [b]. *)
Definition join (a b : string) : string :=
  if PyStr.startswith sep b then b
  else if bool_decide (a = EmptyString) || PyStr.endswith sep a then a +:+ b
  else a +:+ String sep b.

Definition exists_ (p : string) : M bool :=
  λ fs, (Ok (match fs !! p with Some _ => true | None => false end), fs).

Definition isdir (p : string) : M bool :=
  λ fs, (Ok (match fs !! p with Some Dir => true | _ => false end), fs).

End os_path.

Module os.

(** [os.remove(p)] deletes a regular file and refuses anything else. *)
Definition remove (p : string) : M unit :=
  λ fs, match fs !! p with
        | Some (File _) => (Ok (), delete p fs)
        | Some Dir => (Raise (IsADirectoryError p), fs)
        | None => (Raise (FileNotFoundError p), fs)
        end.

Definition mkdir (p : string) : M unit :=
  λ fs, match fs !! p with
        | Some _ =>
            (Raise (FileExistsError ("[Errno 17] File exists: '" +:+ p +:+ "'")), fs)
        | None => (Ok (), <[p := Dir]> fs)
        end.

End os.

(** Writing a file, as [DataFrame.to_excel], [DataFrame.to_csv] and the
    HTML export do: the path is created or truncated, and a directory in
    its place is refused. *)
Definition write_file (p : string) (c : content) : M unit :=
  λ fs, match fs !! p with
        | Some Dir => (Raise (IsADirectoryError p), fs)
        | _ => (Ok (), <[p := File c]> fs)
        end.

Definition to_excel (df : pd.DataFrame) (p : string) : M unit :=
  write_file p (Xlsx df).

Definition to_csv (df : pd.DataFrame) (p : string) : M unit :=
  write_file p (Csv df).

(** ** The arguments of [run_all] *)

(** The numeric keyword arguments, which [run_all] hands on to
    [get_macrocycles]; floating-point values are carried as rationals,
    [run_all] doing no arithmetic on them. *)
Record config := mkConfig {
  bond_dist : Q;
  aspect_ratio_filter : Q;
  oxygen_dist_cutoff : Q;
  min_num_carbons : Z;
  max_num_carbons : Z;
  min_cycle_cc_bond_length : Q;
  max_cycle_cc_bond_length : Q
}.

Definition default_config : config :=
  {| bond_dist := 5 # 2;
     aspect_ratio_filter := 3 # 1;
     oxygen_dist_cutoff := 29 # 10;
     min_num_carbons := 10;
     max_num_carbons := 20;
     min_cycle_cc_bond_length := 13 # 10;
     max_cycle_cc_bond_length := 17 # 10 |}.

(** The object passed as [filename]: a [str], an iterable that yields
    [str] items in a fixed order (a list or a tuple, as the docstring
    asks), or an object without [__iter__] such as an [int] or [None]. *)
Inductive pyobject :=
| PyString (s : string)
| PyIterable (items : list string)
| PyInt (n : Z)
| PyNone.

Definition hasattr_iter (o : pyobject) : bool :=
  match o with
  | PyString _ | PyIterable _ => true
  | PyInt _ | PyNone => false
  end.

(** ** The functions imported from [.core] *)

(** [core.py] is outside the sources at hand, so its three functions are
    parameters: what [get_macrocycles] makes of the node it finds at the
    file name, what [get_ellipticity] makes of the atom table, and the
    figure and HTML document [plot_results] renders.  Each call returns
    values of its own: no table is shared between two calls, so the
    assignment [ellipticities["file"] = filename] of [run_all] changes the
    table of one file only. *)
Class Core := {
  PcaVectors : Type;
  Figure : Type;
  macrocycles_of : string → option node → config → result pd.DataFrame;
  ellipticity_of : pd.DataFrame → result (pd.DataFrame * PcaVectors);
  render : pd.DataFrame → string → PcaVectors → result (Figure * string)
}.

(** Modelled from the spec: [get_macrocycles] of [core.py], which is not
    among the sources.  The geometry loader parses the coordinate file it
    is given, so its result depends on the file system through the node at
    [filename] only, and it writes nothing. *)
Definition get_macrocycles `{Core} (filename : string) (cfg : config)
  : M pd.DataFrame :=
  λ fs, (macrocycles_of filename (fs !! filename) cfg, fs).

(** Modelled from the spec: [get_ellipticity] of [core.py], which is not
    among the sources; it does no input or output. *)
Definition get_ellipticity `{Core} (atom_df : pd.DataFrame)
  : M (pd.DataFrame * PcaVectors) :=
  lift (ellipticity_of atom_df).

(** Modelled from the spec: [plot_results] of [core.py], which is not among
    the sources; it renders the atom table and the principal vectors and
    leaves the document at [html_file]. *)
Definition plot_results `{Core} (atom_df : pd.DataFrame) (html_file : string)
    (pca_vector_list : PcaVectors) : M Figure :=
  r <- lift (render atom_df html_file pca_vector_list) ;;
  write_file html_file (Raw r.2) ;;;
  ret r.1.

(** ** [_file_check] *)

(** Lines 16-21: where the file goes. *)
Definition output_path (some_file output_dir : string) : string :=
  if bool_decide ((os_path.split some_file).1 = EmptyString)
  then os_path.join output_dir some_file
  else some_file.

Definition file_exists_msg (some_file : string) : string :=
  "output file '" +:+ some_file +:+ "' already exists" +:+ PyStr.newline.

Definition _file_check (some_file output_dir : string) (overwrite : bool)
  : M string :=
  let some_file := output_path some_file output_dir in
  found <- os_path.exists_ some_file ;;
  if found then
    if negb overwrite then
      raise (FileExistsError (file_exists_msg some_file))
    else
      os.remove some_file ;;;
      ret some_file
  else ret some_file.

(** ** [run_all] *)

Definition no_files_msg : string := "No file(s) specified" +:+ PyStr.newline.

Section RunAll.
Context `{Core}.

(** The body of the loop over the file names: the table kept for the
    summary and the figure of the file. *)
Definition process_file (cfg : config) (output_dir : string)
    (overwrite : bool) (filename : string) : M (pd.DataFrame * Figure) :=
  let file_root := os_path.basename filename in
  let excel_file := file_root +:+ ".xlsx" in
  excel_file <- _file_check excel_file output_dir overwrite ;;
  let html_file := file_root +:+ ".html" in
  html_file <- _file_check html_file output_dir overwrite ;;
  atom_df <- get_macrocycles filename cfg ;;
  r <- get_ellipticity atom_df ;;
  let ellipticities := r.1 in
  let pca_vectors := r.2 in
  to_excel ellipticities excel_file ;;;
  fig <- plot_results atom_df html_file pca_vectors ;;
  let ellipticities := pd.setitem ellipticities "file" (pd.CStr filename) in
  ret (ellipticities, fig).

(** The loop itself; [dfs] and [fig] are the variables of that name, [fig]
    being unbound ([None]) until a first file is through. *)
Fixpoint process_files (cfg : config) (output_dir : string)
    (overwrite : bool) (filenames : list string)
    (dfs : list pd.DataFrame) (fig : option Figure)
  : M (list pd.DataFrame * option Figure) :=
  match filenames with
  | [] => ret (dfs, fig)
  | filename :: rest =>
      r <- process_file cfg output_dir overwrite filename ;;
      process_files cfg output_dir overwrite rest (dfs ++ [r.1]) (Some r.2)
  end.

(** Lines 99-117: the output directory. *)
Definition prepare_output_dir (output_dir : string) (overwrite : bool)
  : M unit :=
  found <- os_path.exists_ output_dir ;;
  if found then
    is_dir <- os_path.isdir output_dir ;;
    if negb is_dir then
      if negb overwrite then
        raise (FileExistsError
                 ("output directory " +:+ output_dir
                  +:+ " already exists but is not a directory"
                  +:+ PyStr.newline))
      else
        os.remove output_dir ;;;
        os.mkdir output_dir
    else ret ()
  else os.mkdir output_dir.

(** Lines 119-131: the summary file, looked at only for several files.
    The result is [out_ext] (unbound, [None], for a single file) and the
    path [summary_file] is bound to from here on. *)
Definition prepare_summary (filenames : list string)
    (summary_file output_dir : string) (overwrite : bool)
  : M (option string * string) :=
  if bool_decide (1 < length filenames)%nat then
    let out_ext := PyStr.last_item (PyStr.split "." summary_file) in
    if negb (bool_decide (out_ext ∈ ["xlsx"; "csv"])) then
      raise (ValueError
               ("summary_file " +:+ summary_file
                +:+ " must have a .xlsx or .csv extension"
                +:+ PyStr.newline))
    else
      summary_file <- _file_check summary_file output_dir overwrite ;;
      ret (Some out_ext, summary_file)
  else ret (None, summary_file).

(** Lines 172-186: the summary table and the value returned, [None] for
    several files and the last figure for one. *)
Definition write_summary (dfs : list pd.DataFrame) (fig : option Figure)
    (out_ext : option string) (summary_file : string)
  : M (option Figure) :=
  if bool_decide (1 < length dfs)%nat then
    let out_df := pd.concat dfs in
    match out_ext with
    | Some ext =>
        if bool_decide (ext = "xlsx") then
          to_excel out_df summary_file ;;; ret None
        else if bool_decide (ext = "csv") then
          to_csv out_df summary_file ;;; ret None
        else
          raise (ValueError ("`out_ext` should be xlsx or csv" +:+ PyStr.newline))
    | None => raise (OtherError "NameError")
    end
  else ret fig.

Definition run_all (filename : pyobject) (cfg : config)
    (summary_file output_dir : string) (overwrite : bool)
  : M (option Figure) :=
  let filenames :=
    if hasattr_iter filename then
      match filename with
      | PyString s => [s]
      | PyIterable items => items
      | _ => []
      end
    else [] in
  if bool_decide (length filenames = 0%nat) then
    raise (ValueError no_files_msg)
  else
    prepare_output_dir output_dir overwrite ;;;
    s <- prepare_summary filenames summary_file output_dir overwrite ;;
    r <- process_files cfg output_dir overwrite filenames [] None ;;
    write_summary r.1 r.2 s.1 s.2.

End RunAll.

(** ** Notions used in the statements *)

Section Notions.
Context `{Core}.

(** The per-file output paths of an input file. *)
Definition excel_path (filename output_dir : string) : string :=
  output_path (os_path.basename filename +:+ ".xlsx") output_dir.

Definition html_path (filename output_dir : string) : string :=
  output_path (os_path.basename filename +:+ ".html") output_dir.

(** [t] is a table [get_ellipticity] returns for the atom table
    [get_macrocycles] makes of file [f] under [cfg]. *)
Definition ellipticity_table (cfg : config) (f : string) (t : pd.DataFrame)
  : Prop :=
  ∃ n atom_df pca,
    macrocycles_of f n cfg = Ok atom_df ∧
    ellipticity_of atom_df = Ok (t, pca).

(** The frame kept for the summary, from the table of the file. *)
Definition tagged (f : string) (t : pd.DataFrame) : pd.DataFrame :=
  pd.setitem t "file" (pd.CStr f).

(** The rows of [t] once [run_all] has tagged them with their file. *)
Definition tagged_rows (f : string) (t : pd.DataFrame)
  : list (gmap string pd.cell) :=
  (λ r, <["file" := pd.CStr f]> r) <$> pd.rows t.

(** The contents of [fs] at [p] is the table [df], as a spreadsheet or as
    comma-separated values. *)
Definition holds_table (fs : gmap string node) (p : string)
    (df : pd.DataFrame) : Prop :=
  fs !! p = Some (File (Xlsx df)) ∨ fs !! p = Some (File (Csv df)).

(** [run_all], started in [fs] on the batch [filenames], gets as far as
    the file that follows [done] and is then in [fs']: the output
    directory and the summary file went through, and so did every file of
    [done]. *)
Definition reaches (cfg : config) (summary_file output_dir : string)
    (overwrite : bool) (filenames done : list string)
    (fs fs' : gmap string node) : Prop :=
  ∃ fs1 s fs2 r,
    prepare_output_dir output_dir overwrite fs = (Ok (), fs1) ∧
    prepare_summary filenames summary_file output_dir overwrite fs1
      = (Ok s, fs2) ∧
    process_files cfg output_dir overwrite done [] None fs2 = (Ok r, fs').


(** Every path [run_all] writes for a batch; the summary file is written
    for several files only. *)
Definition output_paths (filenames : list string)
    (summary_file output_dir : string) : gset string :=
  (if bool_decide (1 < length filenames)%nat
   then {[ output_path summary_file output_dir ]} else ∅)
  ∪ list_to_set ((λ f, excel_path f output_dir) <$> filenames)
  ∪ list_to_set ((λ f, html_path f output_dir) <$> filenames).

End Notions.

(** ** Sample instances of [.core] and sample file systems *)

Definition atoms_of (data : string) : pd.DataFrame :=
  {| pd.columns := ["atom"];
     pd.rows := [ {[ "atom" := pd.CStr data ]} ] |}.

Definition rings_of (atom_df : pd.DataFrame) : pd.DataFrame :=
  {| pd.columns := ["id"; "pca_ellip"];
     pd.rows :=
       (λ r, {[ "id" := pd.cell_at r "atom"; "pca_ellip" := pd.CNum 0 ]})
         <$> pd.rows atom_df |}.

Definition load_atoms (f : string) (n : option node) : result pd.DataFrame :=
  match n with
  | Some (File (Raw data)) => Ok (atoms_of data)
  | Some (File _) => Raise (ValueError "not a coordinate file")
  | Some Dir => Raise (IsADirectoryError f)
  | None => Raise (FileNotFoundError f)
  end.

(** A core that takes any configuration. *)
Definition lenient_core : Core :=
  {| PcaVectors := unit;
     Figure := string;
     macrocycles_of f n cfg := load_atoms f n;
     ellipticity_of atom_df := Ok (rings_of atom_df, ());
     render atom_df html_file pca := Ok ("figure " +:+ html_file, "<html/>") |}.

Definition invalid (cfg : config) : bool :=
  bool_decide (max_num_carbons cfg < min_num_carbons cfg)
  || negb (Qle_bool 0 (bond_dist cfg)).

(** A core whose [get_macrocycles] turns down an invalid configuration. *)
Definition strict_core : Core :=
  {| PcaVectors := unit;
     Figure := string;
     macrocycles_of f n cfg :=
       if invalid cfg then Raise (ValueError "invalid configuration")
       else load_atoms f n;
     ellipticity_of atom_df := Ok (rings_of atom_df, ());
     render atom_df html_file pca := Ok ("figure " +:+ html_file, "<html/>") |}.

Definition bad_config : config :=
  {| bond_dist := -1 # 1;
     aspect_ratio_filter := 3 # 1;
     oxygen_dist_cutoff := 29 # 10;
     min_num_carbons := 20;
     max_num_carbons := 10;
     min_cycle_cc_bond_length := 13 # 10;
     max_cycle_cc_bond_length := 17 # 10 |}.

(** A working directory with two coordinate files. *)
Definition two_files : gmap string node :=
  {[ "." := Dir;
     "a.xyz" := File (Raw "C 0.0 0.0 0.0");
     "b.xyz" := File (Raw "C 1.0 1.0 1.0") ]}.

(** The same directory without [a.xyz]. *)
Definition only_b : gmap string node :=
  {[ "." := Dir;
     "b.xyz" := File (Raw "C 1.0 1.0 1.0") ]}.

(** The same directory with output left behind by an earlier run. *)
Definition stale_output : gmap string node :=
  <[ "out" := Dir ]>
  (<[ "out/a.xyz.xlsx" := File (Raw "stale") ]> two_files).

Definition a_table : pd.DataFrame := rings_of (atoms_of "C 0.0 0.0 0.0").
Definition b_table : pd.DataFrame := rings_of (atoms_of "C 1.0 1.0 1.0").

(** [only_b] once [b.xyz] has been processed into [out]. *)
Definition b_done : gmap string node :=
  <[ "out/b.xyz.html" := File (Raw "<html/>") ]>
  (<[ "out/b.xyz.xlsx" := File (Xlsx b_table) ]>
  (<[ "out" := Dir ]> only_b)).

(** A batch of the two files, from a clean directory and over the output
    of an earlier run. *)
Definition clean_run : result (option string) * gmap string node :=
  @run_all lenient_core (PyIterable ["a.xyz"; "b.xyz"]) default_config
    "summary.xlsx" "out" true two_files.

Definition second_run : result (option string) * gmap string node :=
  @run_all lenient_core (PyIterable ["a.xyz"; "b.xyz"]) default_config
    "summary.xlsx" "out" true stale_output.

Definition single_run : result (option string) * gmap string node :=
  @run_all lenient_core (PyString "a.xyz") default_config
    "summary.xlsx" "out" false two_files.

(** ** Further notions and samples *)

(** A relation between the file system before and after, kept by a
    computation whatever its outcome. *)
Definition keeps (R : relation (gmap string node)) {A} (m : M A) : Prop :=
  ∀ fs r fs', m fs = (r, fs') → R fs fs'.

(** Every directory of the first file system is a directory of the second. *)
Definition dirs_stay (fs fs' : gmap string node) : Prop :=
  ∀ q, fs !! q = Some Dir → fs' !! q = Some Dir.

(** Nothing changes outside the paths of [K]. *)
Definition same_outside (K : gset string) (fs fs' : gmap string node) : Prop :=
  ∀ q, q ∉ K → fs' !! q = fs !! q.

Definition not_a_directory_msg (output_dir : string) : string :=
  "output directory " +:+ output_dir
  +:+ " already exists but is not a directory" +:+ PyStr.newline.

Definition summary_extension_msg (summary_file : string) : string :=
  "summary_file " +:+ summary_file
  +:+ " must have a .xlsx or .csv extension" +:+ PyStr.newline.

Definition out_is_file : gmap string node :=
  <[ "out" := File (Raw "notes") ]> two_files.

Definition nested : gmap string node :=
  <[ "data/a.xyz" := File (Raw "C 2.0 2.0 2.0") ]> two_files.

Definition nested_a_done : gmap string node :=
  <[ "out/a.xyz.html" := File (Raw "<html/>") ]>
  (<[ "out/a.xyz.xlsx" := File (Xlsx a_table) ]>
  (<[ "out" := Dir ]> nested)).

Definition clean_run_plain : result (option string) * gmap string node :=
  @run_all lenient_core (PyIterable ["a.xyz"; "b.xyz"]) default_config
    "summary.xlsx" "out" false two_files.

Definition refused_run : result (option string) * gmap string node :=
  @run_all lenient_core (PyIterable ["a.xyz"; "b.xyz"]) default_config
    "summary.xlsx" "out" false stale_output.

(** A core whose [plot_results] fails. *)
Definition no_plot_core : Core :=
  {| PcaVectors := unit;
     Figure := string;
     macrocycles_of f n cfg := load_atoms f n;
     ellipticity_of atom_df := Ok (rings_of atom_df, ());
     render atom_df html_file pca := Raise (OtherError "RuntimeError") |}.

(** ** Notions for the tables and for what is on disk *)

(** [t] is the table [get_ellipticity] returns for the atom table
    [get_macrocycles] makes of what [fs] holds at [f]. *)
Definition table_read `{Core} (cfg : config) (f : string)
    (fs : gmap string node) (t : pd.DataFrame) : Prop :=
  ∃ atom_df pca,
    macrocycles_of f (fs !! f) cfg = Ok atom_df ∧
    ellipticity_of atom_df = Ok (t, pca).

(** The [file] column of the tagged table of a file, read down its rows. *)
Definition file_cells (f : string) (t : pd.DataFrame) : list pd.cell :=
  replicate (length (pd.rows t)) (pd.CStr f).










(** * Properties *)

(** ** The monad *)

Lemma bind_ok {A B} (m : M A) (k : A → M B) fs a fs1 :
  m fs = (Ok a, fs1) → bind m k fs = k a fs1.
Proof. unfold bind. by intros ->. Qed.

Lemma bind_raise {A B} (m : M A) (k : A → M B) fs e fs1 :
  m fs = (Raise e, fs1) → bind m k fs = (Raise e, fs1).
Proof. unfold bind. by intros ->. Qed.

Lemma bind_inv_ok {A B} (m : M A) (k : A → M B) fs b fs' :
  bind m k fs = (Ok b, fs') →
  ∃ a fs1, m fs = (Ok a, fs1) ∧ k a fs1 = (Ok b, fs').
Proof.
  unfold bind. destruct (m fs) as [[a|e] fs1]; [eauto | done].
Qed.

Lemma bind_inv_raise {A B} (m : M A) (k : A → M B) fs e fs' :
  bind m k fs = (Raise e, fs') →
  m fs = (Raise e, fs') ∨ ∃ a fs1, m fs = (Ok a, fs1) ∧ k a fs1 = (Raise e, fs').
Proof.
  unfold bind. destruct (m fs) as [[a|e0] fs1]; [eauto | intros [= -> ->]; eauto].
Qed.

(** Take a successful sequence apart, one call at a time. *)
Ltac bind_inv H :=
  let a := fresh "a" in
  let fs := fresh "fs" in
  let Hm := fresh "Hm" in
  apply bind_inv_ok in H as (a & fs & Hm & H).

(** ** Strings and paths *)

Lemma rfind_bounds c s : -1 ≤ PyStr.rfind c s < Z.of_nat (String.length s).
Proof.
  induction s as [|a s IH]; simpl; [lia|].
  destruct (Z.leb_spec 0 (PyStr.rfind c s)); [lia|].
  case_bool_decide; lia.
Qed.

Lemma rfind_contains c s :
  PyStr.contains c s = false ↔ PyStr.rfind c s = -1.
Proof.
  induction s as [|a s IH]; simpl; [done|].
  pose proof (rfind_bounds c s).
  destruct (Z.leb_spec 0 (PyStr.rfind c s)).
  - split; [|lia]. intros [_ Hc]%orb_false_iff. apply IH in Hc. lia.
  - assert (PyStr.rfind c s = -1) as Hr by lia. apply IH in Hr. rewrite Hr.
    case_bool_decide; simpl; split; (done || lia).
Qed.

Lemma contains_app c s t :
  PyStr.contains c (s +:+ t) = PyStr.contains c s || PyStr.contains c t.
Proof.
  induction s as [|a s IH]; simpl; [done|]. by rewrite IH, orb_assoc.
Qed.

Lemma startswith_contains c s :
  PyStr.startswith c s = true → PyStr.contains c s = true.
Proof. destruct s; simpl; [done|]. by intros ->. Qed.

Lemma rstrip_empty c s :
  PyStr.rstrip c s = EmptyString → s = PyStr.repeat c (String.length s).
Proof.
  induction s as [|a s IH]; simpl; [done|].
  destruct (PyStr.rstrip c s); [|done].
  case_bool_decide; [|done]. intros _. subst a. f_equal. by apply IH.
Qed.

Lemma split_head_nonempty h :
  h ≠ EmptyString →
  (if bool_decide (h ≠ EmptyString)
      && bool_decide (h ≠ PyStr.repeat os_path.sep (String.length h))
   then PyStr.rstrip os_path.sep h
   else h) ≠ EmptyString.
Proof.
  intros Hne. rewrite bool_decide_eq_true_2 by done. simpl.
  case_bool_decide as Hrep; [|done].
  by intros Hr%rstrip_empty.
Qed.

Lemma slice_to_nonempty i p :
  0 < i → p ≠ EmptyString → PyStr.slice_to i p ≠ EmptyString.
Proof.
  intros Hi Hp. unfold PyStr.slice_to.
  assert (∃ n, Z.to_nat i = S n) as [n ->] by (exists (Z.to_nat (i - 1)); lia).
  by destruct p.
Qed.

(** The head [os.path.split] returns is empty exactly for a name without
    a slash. *)
Lemma split_head_empty p :
  (os_path.split p).1 = EmptyString ↔ PyStr.contains "/" p = false.
Proof.
  rewrite rfind_contains. unfold os_path.split.
  pose proof (rfind_bounds "/" p) as Hb.
  cbv zeta. unfold fst.
  split.
  - intros Hh. destruct (decide (PyStr.rfind "/" p = -1)) as [|Hi]; [done|].
    exfalso. revert Hh.
    apply split_head_nonempty, slice_to_nonempty; [unfold os_path.sep; lia|].
    intros ->. by apply Hi.
  - unfold os_path.sep. intros ->. by destruct p.
Qed.

Lemma output_path_bare some_file output_dir :
  PyStr.contains "/" some_file = false →
  output_path some_file output_dir =
    if bool_decide (output_dir = EmptyString) || PyStr.endswith "/" output_dir
    then output_dir +:+ some_file
    else output_dir +:+ "/" +:+ some_file.
Proof.
  intros Hc. unfold output_path.
  rewrite bool_decide_eq_true_2 by (by apply split_head_empty).
  unfold os_path.join.
  destruct (PyStr.startswith os_path.sep some_file) eqn:Hs.
  - apply startswith_contains in Hs. unfold os_path.sep in Hs. congruence.
  - done.
Qed.

Lemma output_path_with_dir some_file output_dir :
  PyStr.contains "/" some_file = true →
  output_path some_file output_dir = some_file.
Proof.
  intros Hc. unfold output_path.
  rewrite bool_decide_eq_false_2; [done|].
  rewrite split_head_empty. congruence.
Qed.

(** ** [_file_check] *)

Lemma file_check_unfold some_file output_dir overwrite fs :
  _file_check some_file output_dir overwrite fs =
    let p := output_path some_file output_dir in
    match fs !! p with
    | None => (Ok p, fs)
    | Some n =>
        if overwrite then
          match n with
          | File _ => (Ok p, delete p fs)
          | Dir => (Raise (IsADirectoryError p), fs)
          end
        else (Raise (FileExistsError (file_exists_msg p)), fs)
    end.
Proof.
  unfold _file_check, bind, os_path.exists_, os.remove, raise, ret. simpl.
  destruct (fs !! output_path some_file output_dir) as [[c|]|] eqn:E;
    destruct overwrite; simpl; by rewrite ?E.
Qed.

Lemma file_check_ok some_file output_dir overwrite fs p fs' :
  _file_check some_file output_dir overwrite fs = (Ok p, fs') →
  p = output_path some_file output_dir ∧
  fs' !! p = None ∧
  (∀ q, q ≠ p → fs' !! q = fs !! q) ∧
  (∀ q, fs !! q = Some Dir → fs' !! q = Some Dir).
Proof.
  rewrite file_check_unfold. simpl.
  destruct (fs !! output_path some_file output_dir) as [[c|]|] eqn:E;
    destruct overwrite; intros [= <- <-]; split_and!; try done.
  - apply lookup_delete_eq.
  - intros q Hq. by apply lookup_delete_ne.
  - intros q Hq. rewrite lookup_delete_ne; [done|]. congruence.
Qed.

(** C9: [_file_check] puts a name without a directory part under
    [output_dir] and returns a name with one as it is, whatever
    [output_dir]. *)
Theorem file_check_placement some_file output_dir overwrite fs p fs' :
  _file_check some_file output_dir overwrite fs = (Ok p, fs') →
  if PyStr.contains "/" some_file
  then p = some_file
  else p = if bool_decide (output_dir = EmptyString)
                || PyStr.endswith "/" output_dir
           then output_dir +:+ some_file
           else output_dir +:+ "/" +:+ some_file.
Proof.
  intros (-> & _)%file_check_ok.
  destruct (PyStr.contains "/" some_file) eqn:Hc.
  - by apply output_path_with_dir.
  - by apply output_path_bare.
Qed.

(** ** The steps of [run_all] *)

Lemma write_file_ok p c fs u fs' :
  write_file p c fs = (Ok u, fs') → fs' = <[p := File c]> fs.
Proof.
  unfold write_file. destruct (fs !! p) as [[?|]|]; by intros [= _ <-].
Qed.

Lemma prepare_output_dir_ok `{Core} output_dir overwrite fs u fs' :
  prepare_output_dir output_dir overwrite fs = (Ok u, fs') →
  fs' !! output_dir = Some Dir ∧
  (∀ q, q ≠ output_dir → fs' !! q = fs !! q).
Proof.
  unfold prepare_output_dir, bind, os_path.exists_, os_path.isdir, os.remove,
    os.mkdir, raise, ret.
  destruct (fs !! output_dir) as [[c|]|] eqn:E; simpl; rewrite ?E.
  - destruct overwrite; simpl; [|done].
    rewrite E, lookup_delete_eq. intros [= _ <-]. split.
    + apply lookup_insert_eq.
    + intros q Hq. by rewrite lookup_insert_ne, lookup_delete_ne.
  - by intros [= _ <-].
  - intros [= _ <-]. split.
    + apply lookup_insert_eq.
    + intros q Hq. by rewrite lookup_insert_ne.
Qed.

Lemma prepare_summary_single `{Core} filenames summary_file output_dir overwrite fs :
  ¬ (1 < length filenames)%nat →
  prepare_summary filenames summary_file output_dir overwrite fs
    = (Ok (None, summary_file), fs).
Proof.
  intros Hn. unfold prepare_summary. by rewrite bool_decide_eq_false_2.
Qed.

Lemma prepare_summary_ok `{Core} filenames summary_file output_dir overwrite fs s fs' :
  (1 < length filenames)%nat →
  prepare_summary filenames summary_file output_dir overwrite fs = (Ok s, fs') →
  ∃ ext,
    ext = PyStr.last_item (PyStr.split "." summary_file) ∧
    (ext = "xlsx" ∨ ext = "csv") ∧
    s = (Some ext, output_path summary_file output_dir) ∧
    _file_check summary_file output_dir overwrite fs
      = (Ok (output_path summary_file output_dir), fs').
Proof.
  intros Hn. unfold prepare_summary. rewrite bool_decide_eq_true_2 by done.
  cbv zeta. case_bool_decide as Hext; simpl; [|done].
  intros Hs. bind_inv Hs. injection Hs as <- <-.
  pose proof Hm as (-> & _)%file_check_ok.
  eexists. split; [done|]. split; [|done].
  apply elem_of_cons in Hext as [->|Hext]; [by left|].
  apply list_elem_of_singleton in Hext as ->. by right.
Qed.

Section Steps.
Context `{Core}.

Lemma process_file_ok cfg output_dir overwrite f fs r fs' :
  process_file cfg output_dir overwrite f fs = (Ok r, fs') →
  ∃ fs1 fs2 atom_df t pca fig doc,
    _file_check (os_path.basename f +:+ ".xlsx") output_dir overwrite fs
      = (Ok (excel_path f output_dir), fs1) ∧
    _file_check (os_path.basename f +:+ ".html") output_dir overwrite fs1
      = (Ok (html_path f output_dir), fs2) ∧
    macrocycles_of f (fs2 !! f) cfg = Ok atom_df ∧
    ellipticity_of atom_df = Ok (t, pca) ∧
    render atom_df (html_path f output_dir) pca = Ok (fig, doc) ∧
    fs' = <[html_path f output_dir := File (Raw doc)]>
            (<[excel_path f output_dir := File (Xlsx t)]> fs2) ∧
    r = (pd.setitem t "file" (pd.CStr f), fig).
Proof.
  unfold process_file. intros Hp.
  bind_inv Hp. rename a into x, fs0 into fs1, Hm into Hx.
  bind_inv Hp. rename a into h, fs0 into fs2, Hm into Hh.
  bind_inv Hp. rename a into atom_df, Hm into Ha.
  bind_inv Hp. rename a into te, Hm into He.
  bind_inv Hp. rename Hm into Hw.
  bind_inv Hp. rename a0 into fig, Hm into Hf.
  injection Hp as <- <-.
  unfold get_macrocycles in Ha. injection Ha as Ha <-.
  unfold get_ellipticity, lift in He. injection He as He <-.
  apply write_file_ok in Hw as ->.
  unfold plot_results in Hf.
  bind_inv Hf. rename a0 into fd, Hm into Hr.
  bind_inv Hf. rename Hm into Hw.
  injection Hf as <- <-.
  unfold lift in Hr. injection Hr as Hr <-.
  apply write_file_ok in Hw as ->.
  pose proof Hx as (-> & _)%file_check_ok.
  pose proof Hh as (-> & _)%file_check_ok.
  destruct te as [t pca], fd as [fig doc]. simpl in *.
  by exists fs1, fs2, atom_df, t, pca, fig, doc.
Qed.

Lemma process_files_app cfg output_dir overwrite l1 l2 dfs fig fs :
  process_files cfg output_dir overwrite (l1 ++ l2) dfs fig fs =
  bind (process_files cfg output_dir overwrite l1 dfs fig)
       (λ r, process_files cfg output_dir overwrite l2 r.1 r.2) fs.
Proof.
  revert dfs fig fs. induction l1 as [|f l1 IH]; intros dfs fig fs; simpl.
  - done.
  - unfold bind in *.
    destruct (process_file cfg output_dir overwrite f fs) as [[r|e] fs1].
    + apply IH.
    + done.
Qed.

(** An exception of the loop body is the exception of [run_all]. *)
Lemma run_all_raise_at cfg summary_file output_dir overwrite done f rest
    fs fs' e fs'' :
  reaches cfg summary_file output_dir overwrite (done ++ f :: rest) done fs fs' →
  process_file cfg output_dir overwrite f fs' = (Raise e, fs'') →
  run_all (PyIterable (done ++ f :: rest)) cfg summary_file output_dir
    overwrite fs = (Raise e, fs'').
Proof.
  intros (fs1 & s & fs2 & r & Hd & Hs & Hl) Hf.
  unfold run_all. simpl.
  rewrite bool_decide_eq_false_2 by (rewrite length_app; simpl; lia).
  destruct (prepare_output_dir output_dir overwrite fs) as [[[]|] ?] eqn:E;
    [|done]. injection Hd as ->.
  erewrite bind_ok by exact E.
  erewrite bind_ok by exact Hs.
  apply bind_raise. rewrite process_files_app.
  erewrite bind_ok by exact Hl. simpl.
  by apply bind_raise.
Qed.

End Steps.

(** ** What a step leaves alone *)

Lemma bind_inv {A B} (m : M A) (k : A → M B) fs r fs' :
  bind m k fs = (r, fs') →
  (∃ e, m fs = (Raise e, fs') ∧ r = Raise e) ∨
  (∃ a fs1, m fs = (Ok a, fs1) ∧ k a fs1 = (r, fs')).
Proof.
  unfold bind. destruct (m fs) as [[a|e] fs1]; [eauto|].
  intros [= <- <-]. eauto.
Qed.

Lemma file_check_frame some_file output_dir overwrite fs r fs' :
  _file_check some_file output_dir overwrite fs = (r, fs') →
  ∀ q, q ≠ output_path some_file output_dir → fs' !! q = fs !! q.
Proof.
  rewrite file_check_unfold. simpl.
  destruct (fs !! output_path some_file output_dir) as [[c|]|];
    destruct overwrite; intros [= <- <-] q Hq; try done.
  by apply lookup_delete_ne.
Qed.

Lemma write_file_frame p c fs r fs' :
  write_file p c fs = (r, fs') → ∀ q, q ≠ p → fs' !! q = fs !! q.
Proof.
  unfold write_file.
  destruct (fs !! p) as [[?|]|]; intros [= <- <-] q Hq; try done;
    by apply lookup_insert_ne.
Qed.

Section Frame.
Context `{Core}.

(** Whatever comes of it, processing a file touches nothing but the two
    output paths of that file. *)
Lemma process_file_frame cfg output_dir overwrite f fs r fs' :
  process_file cfg output_dir overwrite f fs = (r, fs') →
  ∀ q, q ≠ excel_path f output_dir → q ≠ html_path f output_dir →
       fs' !! q = fs !! q.
Proof.
  intros Hp q HqX HqH. unfold process_file in Hp.
  apply bind_inv in Hp as [(e & Hx & _)|(x & fs1 & Hx & Hp)].
  { by eapply file_check_frame. }
  pose proof (file_check_frame _ _ _ _ _ _ Hx q HqX) as F1.
  apply file_check_ok in Hx as (-> & _).
  apply bind_inv in Hp as [(e & Hh & _)|(h & fs2 & Hh & Hp)].
  { rewrite <- F1. by eapply file_check_frame. }
  pose proof (file_check_frame _ _ _ _ _ _ Hh q HqH) as F2.
  apply file_check_ok in Hh as (-> & _).
  apply bind_inv in Hp as [(e & Ha & _)|(atom_df & fs3 & Ha & Hp)];
    unfold get_macrocycles in Ha; injection Ha as _ <-.
  { congruence. }
  apply bind_inv in Hp as [(e & He & _)|(te & fs4 & He & Hp)];
    unfold get_ellipticity, lift in He; injection He as _ <-.
  { congruence. }
  apply bind_inv in Hp as [(e & Hw & _)|(u & fs5 & Hw & Hp)];
    pose proof (write_file_frame _ _ _ _ _ Hw q HqX) as F5.
  { congruence. }
  apply bind_inv in Hp as [(e & Hf & _)|(fig & fs6 & Hf & Hp)].
  2: injection Hp as _ <-.
  all: unfold plot_results in Hf.
  all: apply bind_inv in Hf as [(e' & Hr & _)|(fd & fs7 & Hr & Hf)];
    unfold lift in Hr; injection Hr as _ <-; [congruence|].
  all: apply bind_inv in Hf as [(e' & Hw' & _)|(u' & fs8 & Hw' & Hf)];
    pose proof (write_file_frame _ _ _ _ _ Hw' q HqH) as F8;
    [congruence|].
  all: injection Hf as _ <-; congruence.
Qed.

End Frame.

(** ** The [filename] argument *)


(** ** Errors in the middle of a batch *)

(** C1 (as amended): an error raised while a file is processed is raised
    by [run_all] there and then, in the file system of that moment: no
    later file is processed and no summary is written, and everything but
    the two output paths of the failing file is as the earlier files left
    it. *)
Theorem error_aborts_batch `{Core} cfg summary_file output_dir overwrite
    done f rest fs fs' e fs'' :
  reaches cfg summary_file output_dir overwrite (done ++ f :: rest) done fs fs' →
  process_file cfg output_dir overwrite f fs' = (Raise e, fs'') →
  run_all (PyIterable (done ++ f :: rest)) cfg summary_file output_dir
    overwrite fs = (Raise e, fs'')
  ∧ ∀ q, q ≠ excel_path f output_dir → q ≠ html_path f output_dir →
         fs'' !! q = fs' !! q.
Proof.
  intros Hr Hf. split.
  - by eapply run_all_raise_at.
  - by eapply process_file_frame.
Qed.

(** ** Output paths that exist already *)

Lemma output_path_inj output_dir a b :
  PyStr.contains "/" a = PyStr.contains "/" b →
  output_path a output_dir = output_path b output_dir → a = b.
Proof.
  intros Hc. destruct (PyStr.contains "/" b) eqn:Hb.
  - by rewrite !output_path_with_dir.
  - rewrite !output_path_bare by done.
    destruct (_ || _); intros E.
    + by apply (inj (String.append output_dir)) in E.
    + apply (inj (String.append output_dir)) in E.
      by apply (inj (String.append "/")) in E.
Qed.

Lemma excel_html_ne f output_dir :
  excel_path f output_dir ≠ html_path f output_dir.
Proof.
  unfold excel_path, html_path. intros E. apply output_path_inj in E.
  - by apply (inj (String.append (os_path.basename f))) in E.
  - by rewrite !contains_app.
Qed.

Lemma file_check_fresh some_file output_dir overwrite fs :
  fs !! output_path some_file output_dir = None →
  _file_check some_file output_dir overwrite fs
    = (Ok (output_path some_file output_dir), fs).
Proof. intros E. rewrite file_check_unfold. simpl. by rewrite E. Qed.

Lemma file_check_refuses some_file output_dir fs n :
  fs !! output_path some_file output_dir = Some n →
  _file_check some_file output_dir false fs
    = (Raise (FileExistsError
                (file_exists_msg (output_path some_file output_dir))), fs).
Proof. intros E. rewrite file_check_unfold. simpl. by rewrite E. Qed.

Lemma file_check_deletes some_file output_dir fs c :
  fs !! output_path some_file output_dir = Some (File c) →
  _file_check some_file output_dir true fs
    = (Ok (output_path some_file output_dir),
       delete (output_path some_file output_dir) fs).
Proof. intros E. rewrite file_check_unfold. simpl. by rewrite E. Qed.

Section Existing.
Context `{Core}.

Lemma process_file_refuses cfg output_dir f fs p n :
  p = excel_path f output_dir ∨ p = html_path f output_dir →
  fs !! p = Some n →
  ∃ p', (p' = excel_path f output_dir ∨ p' = html_path f output_dir) ∧
        is_Some (fs !! p') ∧
        process_file cfg output_dir false f fs
          = (Raise (FileExistsError (file_exists_msg p')), fs).
Proof.
  intros Hp Hn. unfold process_file.
  destruct (fs !! excel_path f output_dir) as [nx|] eqn:Ex.
  - exists (excel_path f output_dir). split_and!; [by left|by eexists|].
    apply bind_raise. by eapply file_check_refuses.
  - destruct Hp as [->| ->]; [congruence|].
    exists (html_path f output_dir). split_and!; [by right|by eexists|].
    erewrite bind_ok by (by apply file_check_fresh).
    apply bind_raise. by eapply file_check_refuses.
Qed.

Lemma process_file_deletes cfg output_dir f fs p c :
  p = excel_path f output_dir
  ∨ (p = html_path f output_dir ∧ fs !! excel_path f output_dir ≠ Some Dir) →
  fs !! p = Some (File c) →
  process_file cfg output_dir true f fs
    = process_file cfg output_dir true f (delete p fs).
Proof.
  pose proof (excel_html_ne f output_dir) as Hne. revert Hne.
  unfold excel_path, html_path, process_file.
  set (x := os_path.basename f +:+ ".xlsx").
  set (h := os_path.basename f +:+ ".html").
  intros Hne [->|[-> Hx]] Hc.
  - rewrite (bind_ok _ _ _ _ _ (file_check_deletes x _ _ _ Hc)).
    by rewrite (bind_ok _ _ _ _ _
                  (file_check_fresh x _ true _ (lookup_delete_eq fs _))).
  - assert (∀ m : gmap string node,
               delete (output_path h output_dir) m !! output_path x output_dir
               = m !! output_path x output_dir) as Hdx
      by (intros m; by apply lookup_delete_ne).
    assert (∀ m : gmap string node,
               delete (output_path x output_dir) m !! output_path h output_dir
               = m !! output_path h output_dir) as Hdh
      by (intros m; by apply lookup_delete_ne).
    destruct (fs !! output_path x output_dir) as [[cx|]|] eqn:Ex; [|done|].
    + rewrite (bind_ok _ _ _ _ _ (file_check_deletes x _ _ _ Ex)).
      rewrite <- Hdh in Hc.
      rewrite (bind_ok _ _ _ _ _ (file_check_deletes h _ _ _ Hc)).
      rewrite <- Hdx in Ex.
      rewrite (bind_ok _ _ _ _ _ (file_check_deletes x _ _ _ Ex)).
      assert (delete (output_path x output_dir)
                (delete (output_path h output_dir) fs)
                !! output_path h output_dir = None) as Eh
        by (by rewrite Hdh, lookup_delete_eq).
      rewrite (bind_ok _ _ _ _ _ (file_check_fresh h _ true _ Eh)).
      by rewrite delete_delete.
    + rewrite (bind_ok _ _ _ _ _ (file_check_fresh x _ true _ Ex)).
      rewrite (bind_ok _ _ _ _ _ (file_check_deletes h _ _ _ Hc)).
      rewrite <- Hdx in Ex.
      rewrite (bind_ok _ _ _ _ _ (file_check_fresh x _ true _ Ex)).
      by rewrite (bind_ok _ _ _ _ _
                    (file_check_fresh h _ true _ (lookup_delete_eq fs _))).
Qed.

(** C8: an output path that exists when [run_all] comes to it makes
    [run_all] raise [FileExistsError] when [overwrite] is [False], for
    the summary file and for the two files of each input; when
    [overwrite] is [True], [_file_check] deletes the file there, and
    the input is processed as if the old file had never been there. *)
Theorem existing_output_file cfg summary_file output_dir filenames fs :
  (∀ fs1 n,
      (1 < length filenames)%nat →
      PyStr.last_item (PyStr.split "." summary_file) ∈ ["xlsx"; "csv"] →
      prepare_output_dir output_dir false fs = (Ok (), fs1) →
      fs1 !! output_path summary_file output_dir = Some n →
      run_all (PyIterable filenames) cfg summary_file output_dir false fs
        = (Raise (FileExistsError
                    (file_exists_msg (output_path summary_file output_dir))),
           fs1)) ∧
  (∀ done f rest fs' p n,
      filenames = done ++ f :: rest →
      reaches cfg summary_file output_dir false filenames done fs fs' →
      p = excel_path f output_dir ∨ p = html_path f output_dir →
      fs' !! p = Some n →
      ∃ p', (p' = excel_path f output_dir ∨ p' = html_path f output_dir) ∧
            is_Some (fs' !! p') ∧
            run_all (PyIterable filenames) cfg summary_file output_dir false fs
              = (Raise (FileExistsError (file_exists_msg p')), fs')) ∧
  (∀ some_file fs0 c,
      fs0 !! output_path some_file output_dir = Some (File c) →
      _file_check some_file output_dir true fs0
        = (Ok (output_path some_file output_dir),
           delete (output_path some_file output_dir) fs0)) ∧
  (∀ f fs' p c,
      p = excel_path f output_dir
      ∨ (p = html_path f output_dir
         ∧ fs' !! excel_path f output_dir ≠ Some Dir) →
      fs' !! p = Some (File c) →
      process_file cfg output_dir true f fs'
        = process_file cfg output_dir true f (delete p fs')).
Proof.
  split_and!.
  - intros fs1 n Hlen Hext Hd Hn. unfold run_all. simpl.
    rewrite bool_decide_eq_false_2 by lia.
    erewrite bind_ok by exact Hd.
    apply bind_raise. unfold prepare_summary.
    rewrite bool_decide_eq_true_2 by done. cbv zeta.
    rewrite bool_decide_eq_true_2 by done. simpl.
    apply bind_raise. by eapply file_check_refuses.
  - intros done f rest fs' p n -> Hr Hp Hn.
    destruct (process_file_refuses cfg output_dir f fs' p n Hp Hn)
      as (p' & Hp' & Hs & Hf).
    exists p'. split_and!; [done..|].
    by eapply run_all_raise_at.
  - intros some_file fs0 c. apply file_check_deletes.
  - intros f fs' p c. apply process_file_deletes.
Qed.

End Existing.

(** ** The tables *)

Lemma setitem_columns df col v : col ∈ pd.columns (pd.setitem df col v).
Proof.
  unfold pd.setitem. simpl. case_bool_decide; [done|].
  apply elem_of_app. right. by apply list_elem_of_singleton.
Qed.

Lemma add_columns_old acc df c : c ∈ acc → c ∈ pd.add_columns acc df.
Proof. intros Hc. apply elem_of_app. by left. Qed.

Lemma add_columns_new acc df c : c ∈ pd.columns df → c ∈ pd.add_columns acc df.
Proof.
  intros Hc. apply elem_of_app.
  destruct (decide (c ∈ acc)); [by left|].
  right. by apply list_elem_of_filter.
Qed.

Lemma foldl_add_columns_old dfs acc c :
  c ∈ acc → c ∈ foldl pd.add_columns acc dfs.
Proof.
  revert acc. induction dfs as [|df dfs IH]; intros acc Hc; simpl; [done|].
  by apply IH, add_columns_old.
Qed.

(** A column of one of the frames is a column of their concatenation. *)
Lemma concat_columns dfs df c :
  df ∈ dfs → c ∈ pd.columns df → c ∈ pd.columns (pd.concat dfs).
Proof.
  unfold pd.concat. simpl. generalize (@nil string).
  induction dfs as [|d dfs IH]; intros acc Hd Hc; simpl.
  - by apply elem_of_nil in Hd.
  - apply elem_of_cons in Hd as [->|Hd].
    + by apply foldl_add_columns_old, add_columns_new.
    + by apply IH.
Qed.

Section Tables.
Context `{Core}.

Lemma process_file_table cfg output_dir overwrite f fs r fs' :
  process_file cfg output_dir overwrite f fs = (Ok r, fs') →
  ∃ t, ellipticity_table cfg f t ∧
       fs' !! excel_path f output_dir = Some (File (Xlsx t)) ∧
       r.1 = tagged f t.
Proof.
  intros (fs1 & fs2 & atom_df & t & pca & fig & doc &
          Hx & Hh & Ha & He & Hr & -> & ->)%process_file_ok.
  exists t. split_and!; [|by rewrite lookup_insert_ne, lookup_insert_eq
                             by (symmetry; apply excel_html_ne)|done].
  by exists (fs2 !! f), atom_df, pca.
Qed.

Lemma process_files_tables cfg output_dir overwrite l dfs fig fs r fs' :
  process_files cfg output_dir overwrite l dfs fig fs = (Ok r, fs') →
  ∃ ts, Forall2 (ellipticity_table cfg) l ts ∧
        r.1 = dfs ++ zip_with tagged l ts.
Proof.
  revert dfs fig fs. induction l as [|f l IH]; intros dfs fig fs; simpl.
  - intros [= <- <-]. exists []. split; [constructor|].
    simpl. by rewrite app_nil_r.
  - intros Hp. bind_inv Hp.
    apply process_file_table in Hm as (t & Ht & _ & Ha).
    apply IH in Hp as (ts & Hts & ->).
    exists (t :: ts). split; [by constructor|].
    simpl. by rewrite Ha, <- app_assoc.
Qed.

Lemma run_all_ok filenames cfg summary_file output_dir overwrite fs v fs' :
  run_all (PyIterable filenames) cfg summary_file output_dir overwrite fs
    = (Ok v, fs') →
  ∃ fs1 s fs2 r fs3,
    prepare_output_dir output_dir overwrite fs = (Ok (), fs1) ∧
    prepare_summary filenames summary_file output_dir overwrite fs1
      = (Ok s, fs2) ∧
    process_files cfg output_dir overwrite filenames [] None fs2
      = (Ok r, fs3) ∧
    write_summary r.1 r.2 s.1 s.2 fs3 = (Ok v, fs').
Proof.
  unfold run_all. simpl. case_bool_decide; [done|]. intros Hr.
  bind_inv Hr. destruct a. rename Hm into Hd.
  bind_inv Hr. rename Hm into Hs.
  bind_inv Hr. rename Hm into Hl.
  eauto 10.
Qed.

Lemma write_summary_ok dfs fig ext summary_file fs v fs' :
  (1 < length dfs)%nat →
  ext = "xlsx" ∨ ext = "csv" →
  write_summary dfs fig (Some ext) summary_file fs = (Ok v, fs') →
  v = None ∧
  holds_table fs' summary_file (pd.concat dfs) ∧
  ∀ q, q ≠ summary_file → fs' !! q = fs !! q.
Proof.
  intros Hlen Hext. unfold write_summary, holds_table.
  rewrite bool_decide_eq_true_2 by done. cbv zeta.
  destruct Hext as [-> | ->]; simpl; intros Hw; bind_inv Hw;
    injection Hw as <- <-; apply write_file_ok in Hm as ->.
  - split_and!; [done|left; apply lookup_insert_eq|].
    intros q Hq. by apply lookup_insert_ne.
  - split_and!; [done|right; apply lookup_insert_eq|].
    intros q Hq. by apply lookup_insert_ne.
Qed.

(** A run over several files that comes through has written, as its
    summary, the concatenation of the tagged tables of the files. *)
Lemma run_all_summary filenames cfg summary_file output_dir overwrite fs v fs' :
  run_all (PyIterable filenames) cfg summary_file output_dir overwrite fs
    = (Ok v, fs') →
  (1 < length filenames)%nat →
  ∃ ts, Forall2 (ellipticity_table cfg) filenames ts ∧
        holds_table fs' (output_path summary_file output_dir)
          (pd.concat (zip_with tagged filenames ts)).
Proof.
  intros (fs1 & s & fs2 & r & fs3 & Hd & Hs & Hl & Hw)%run_all_ok Hlen.
  apply prepare_summary_ok in Hs as (ext & _ & Hext & -> & _); [|done].
  apply process_files_tables in Hl as (ts & Hts & Hr).
  simpl in Hr, Hw. rewrite Hr in Hw.
  apply write_summary_ok in Hw as (_ & Hw & _); [by eauto|..|done].
  rewrite length_zip_with, <- (Forall2_length _ _ _ Hts). lia.
Qed.

End Tables.

Section Tables_and_configuration.
Context `{Core}.

(** C6: the rows of the summary are the rows of the tables of the input
    files, one file after the other in the order the files were given. *)
Theorem summary_in_input_order filenames cfg summary_file output_dir
    overwrite fs v fs' :
  run_all (PyIterable filenames) cfg summary_file output_dir overwrite fs
    = (Ok v, fs') →
  (1 < length filenames)%nat →
  ∃ out_df ts,
    holds_table fs' (output_path summary_file output_dir) out_df ∧
    Forall2 (ellipticity_table cfg) filenames ts ∧
    pd.rows out_df = mjoin (zip_with tagged_rows filenames ts).
Proof.
  intros Hrun Hlen.
  destruct (run_all_summary _ _ _ _ _ _ _ _ Hrun Hlen) as (ts & Hts & Hw).
  eexists _, ts. split_and!; [exact Hw|done|].
  simpl. f_equal. clear.
  revert ts. induction filenames as [|f l IH]; intros [|t ts]; simpl;
    [done..|]. by rewrite IH.
Qed.

(** The table written for a file is the table [get_ellipticity] returned,
    as it was returned; the [file] column of [run_all] goes, after the
    writing, into the copy that is kept for the summary. *)
Theorem per_file_table_written cfg output_dir overwrite f fs r fs' :
  process_file cfg output_dir overwrite f fs = (Ok r, fs') →
  ∃ t, ellipticity_table cfg f t ∧
       fs' !! excel_path f output_dir = Some (File (Xlsx t)) ∧
       r.1 = pd.setitem t "file" (pd.CStr f) ∧
       "file" ∈ pd.columns r.1.
Proof.
  intros (t & Ht & Hx & Hr)%process_file_table.
  exists t. split_and!; [done..|].
  rewrite Hr. apply setitem_columns.
Qed.

Lemma process_file_config cfg cfg' output_dir overwrite f fs :
  (∀ g n, macrocycles_of g n cfg = macrocycles_of g n cfg') →
  process_file cfg output_dir overwrite f fs
    = process_file cfg' output_dir overwrite f fs.
Proof.
  intros Heq. unfold process_file, bind.
  destruct (_file_check _ output_dir overwrite fs) as [[x|e] fs1]; [|done].
  destruct (_file_check _ output_dir overwrite fs1) as [[h|e] fs2]; [|done].
  unfold get_macrocycles. by rewrite Heq.
Qed.

Lemma process_files_config cfg cfg' output_dir overwrite l dfs fig fs :
  (∀ g n, macrocycles_of g n cfg = macrocycles_of g n cfg') →
  process_files cfg output_dir overwrite l dfs fig fs
    = process_files cfg' output_dir overwrite l dfs fig fs.
Proof.
  intros Heq. revert dfs fig fs.
  induction l as [|f l IH]; intros dfs fig fs; simpl; [done|].
  unfold bind. rewrite (process_file_config cfg cfg') by done.
  destruct (process_file cfg' output_dir overwrite f fs) as [[r|e] fs1];
    [apply IH | done].
Qed.

Lemma prepare_summary_dir filenames summary_file output_dir overwrite fs s fs' :
  prepare_summary filenames summary_file output_dir overwrite fs = (Ok s, fs') →
  ∀ q, fs !! q = Some Dir → fs' !! q = Some Dir.
Proof.
  destruct (decide (1 < length filenames)%nat) as [Hlen|Hlen].
  - intros (ext & _ & _ & _ & Hc)%prepare_summary_ok; [|done].
    by apply file_check_ok in Hc as (_ & _ & _ & Hd).
  - rewrite prepare_summary_single by done. by intros [= _ <-].
Qed.

(** C4 (as amended): [run_all] does not look at the numeric
    configuration, it hands it to [get_macrocycles]: configurations that
    [get_macrocycles] treats alike give the same run; and a
    configuration that [get_macrocycles] turns down stops the run at the
    first file, once the output directory is there and the output paths
    of that file have been checked. *)
Theorem configuration_left_to_core summary_file output_dir overwrite fs :
  (∀ cfg cfg' filename,
      (∀ g n, macrocycles_of g n cfg = macrocycles_of g n cfg') →
      run_all filename cfg summary_file output_dir overwrite fs
        = run_all filename cfg' summary_file output_dir overwrite fs) ∧
  (∀ cfg f rest fs' x fs3 h fs4 e,
      reaches cfg summary_file output_dir overwrite (f :: rest) [] fs fs' →
      _file_check (os_path.basename f +:+ ".xlsx") output_dir overwrite fs'
        = (Ok x, fs3) →
      _file_check (os_path.basename f +:+ ".html") output_dir overwrite fs3
        = (Ok h, fs4) →
      macrocycles_of f (fs4 !! f) cfg = Raise e →
      run_all (PyIterable (f :: rest)) cfg summary_file output_dir
        overwrite fs = (Raise e, fs4)
      ∧ fs4 !! output_dir = Some Dir).
Proof.
  split.
  - intros cfg cfg' filename Heq. unfold run_all.
    case_bool_decide; [done|]. unfold bind.
    destruct (prepare_output_dir _ _ _) as [[u|e] fs1]; [|done].
    destruct (prepare_summary _ _ _ _ _) as [[s|e] fs2]; [|done].
    by rewrite (process_files_config cfg cfg').
  - intros cfg f rest fs' x fs3 h fs4 e Hr Hx Hh Ha. split.
    + apply (run_all_raise_at cfg summary_file output_dir overwrite
               [] f rest fs fs'); [done|].
      unfold process_file.
      erewrite bind_ok by exact Hx. erewrite bind_ok by exact Hh.
      apply bind_raise. unfold get_macrocycles. by rewrite Ha.
    + destruct Hr as (fs1 & s & fs2 & r & Hd & Hs & Hl).
      simpl in Hl. injection Hl as _ <-.
      apply prepare_output_dir_ok in Hd as [Hd _].
      eapply prepare_summary_dir in Hs; [|exact Hd].
      apply file_check_ok in Hx as (_ & _ & _ & Hx).
      apply file_check_ok in Hh as (_ & _ & _ & Hh).
      auto.
Qed.

End Tables_and_configuration.

(** ** Two runs on the same input files *)





Section TwoRuns.
Context `{Core}.





End TwoRuns.

(** * Further properties of [run_all] and [_file_check] *)

(** ** Relations kept by every step *)

Lemma keeps_bind {A B} (R : relation (gmap string node)) `{!Transitive R}
    (m : M A) (k : A → M B) :
  keeps R m → (∀ a, keeps R (k a)) → keeps R (bind m k).
Proof.
  intros Hm Hk fs r fs' Hb.
  apply bind_inv in Hb as [(e & Hb & _)|(a & fs1 & Ha & Hb)].
  - by eapply Hm.
  - etrans; [by eapply Hm | by eapply Hk].
Qed.

Lemma keeps_still {A} (R : relation (gmap string node)) `{!Reflexive R}
    (m : M A) :
  (∀ fs, (m fs).2 = fs) → keeps R m.
Proof. intros Hm fs r fs' E. specialize (Hm fs). rewrite E in Hm. by subst. Qed.

Lemma keeps_weaken {A} (R R' : relation (gmap string node)) (m : M A) :
  (∀ fs fs', R fs fs' → R' fs fs') → keeps R m → keeps R' m.
Proof. intros HR Hm fs r fs' E. by eapply HR, Hm. Qed.

Global Instance dirs_stay_preorder : PreOrder dirs_stay.
Proof. split; [by intros fs q|]. intros a b c Hab Hbc q Hq. by apply Hbc, Hab. Qed.

Global Instance same_outside_preorder K : PreOrder (same_outside K).
Proof.
  split; [by intros fs q|]. intros a b c Hab Hbc q Hq.
  by rewrite Hbc, Hab.
Qed.

Lemma same_outside_mono (K K' : gset string) fs fs' :
  K ⊆ K' → same_outside K fs fs' → same_outside K' fs fs'.
Proof. intros Hsub Hs q Hq. apply Hs. set_solver. Qed.

(** *** Directories *)

Lemma file_check_dirs some_file output_dir overwrite :
  keeps dirs_stay (_file_check some_file output_dir overwrite).
Proof.
  intros fs r fs'. rewrite file_check_unfold. simpl.
  destruct (fs !! output_path some_file output_dir) as [[c|]|] eqn:E;
    destruct overwrite; intros [= <- <-] q Hq; try done.
  rewrite lookup_delete_ne; [done|]. congruence.
Qed.

Lemma write_file_dirs p c : keeps dirs_stay (write_file p c).
Proof.
  intros fs r fs'. unfold write_file.
  destruct (fs !! p) as [[?|]|] eqn:E; intros [= <- <-] q Hq; try done;
    (rewrite lookup_insert_ne; [done|congruence]).
Qed.

Lemma mkdir_dirs p : keeps dirs_stay (os.mkdir p).
Proof.
  intros fs r fs'. unfold os.mkdir.
  destruct (fs !! p) eqn:E; intros [= <- <-] q Hq; [done|].
  rewrite lookup_insert_ne; [done|congruence].
Qed.

Lemma remove_dirs p : keeps dirs_stay (os.remove p).
Proof.
  intros fs r fs'. unfold os.remove.
  destruct (fs !! p) as [[?|]|] eqn:E; intros [= <- <-] q Hq; try done.
  rewrite lookup_delete_ne; [done|congruence].
Qed.

Section Dirs.
Context `{Core}.

Lemma prepare_output_dir_dirs output_dir overwrite :
  keeps dirs_stay (prepare_output_dir output_dir overwrite).
Proof.
  unfold prepare_output_dir.
  apply keeps_bind; [apply _|by apply keeps_still; [apply _|]|]. intros [|].
  - apply keeps_bind; [apply _|by apply keeps_still; [apply _|]|]. intros [|]; simpl.
    + by apply keeps_still; [apply _|].
    + destruct overwrite; simpl.
      * apply keeps_bind; [apply _|apply remove_dirs|]. intros _. apply mkdir_dirs.
      * by apply keeps_still; [apply _|].
  - apply mkdir_dirs.
Qed.

Lemma prepare_summary_dirs filenames summary_file output_dir overwrite :
  keeps dirs_stay (prepare_summary filenames summary_file output_dir overwrite).
Proof.
  unfold prepare_summary. case_bool_decide; [|by apply keeps_still; [apply _|]].
  cbv zeta. case_bool_decide; simpl; [|by apply keeps_still; [apply _|]].
  apply keeps_bind; [apply _|apply file_check_dirs|].
  intros p. by apply keeps_still; [apply _|].
Qed.

Lemma process_file_dirs cfg output_dir overwrite f :
  keeps dirs_stay (process_file cfg output_dir overwrite f).
Proof.
  unfold process_file.
  apply keeps_bind; [apply _|apply file_check_dirs|]. intros x.
  apply keeps_bind; [apply _|apply file_check_dirs|]. intros h.
  apply keeps_bind; [apply _|by apply keeps_still; [apply _|]|]. intros atom_df.
  apply keeps_bind; [apply _|by apply keeps_still; [apply _|]|]. intros te.
  apply keeps_bind; [apply _|apply write_file_dirs|]. intros _.
  apply keeps_bind; [apply _| |by intros; apply keeps_still; [apply _|]].
  unfold plot_results.
  apply keeps_bind; [apply _|by apply keeps_still; [apply _|]|]. intros fd.
  apply keeps_bind; [apply _|apply write_file_dirs|]. intros _.
  by apply keeps_still; [apply _|].
Qed.

Lemma process_files_keeps (R : relation (gmap string node)) `{!PreOrder R}
    cfg output_dir overwrite l dfs fig :
  (∀ f, f ∈ l → keeps R (process_file cfg output_dir overwrite f)) →
  keeps R (process_files cfg output_dir overwrite l dfs fig).
Proof.
  revert dfs fig. induction l as [|f l IH]; intros dfs fig Hl; simpl.
  - by apply keeps_still; [apply _|].
  - apply keeps_bind; [apply _|apply Hl; by left|].
    intros r. apply IH. intros g Hg. apply Hl. by right.
Qed.

Lemma write_summary_dirs dfs fig out_ext summary_file :
  keeps dirs_stay (write_summary dfs fig out_ext summary_file).
Proof.
  unfold write_summary. case_bool_decide; [|by apply keeps_still; [apply _|]].
  cbv zeta. destruct out_ext as [ext|]; [|by apply keeps_still; [apply _|]].
  repeat case_bool_decide; try (by apply keeps_still; [apply _|]);
    (apply keeps_bind; [apply _|apply write_file_dirs|]);
    intros _; by apply keeps_still; [apply _|].
Qed.

Lemma run_all_dirs filename cfg summary_file output_dir overwrite :
  keeps dirs_stay (run_all filename cfg summary_file output_dir overwrite).
Proof.
  unfold run_all. case_bool_decide; [by apply keeps_still; [apply _|]|].
  apply keeps_bind; [apply _|apply prepare_output_dir_dirs|]. intros _.
  apply keeps_bind; [apply _|apply prepare_summary_dirs|]. intros s.
  apply keeps_bind; [apply _| |intros r; apply write_summary_dirs].
  apply process_files_keeps; [apply _|]. intros f _. apply process_file_dirs.
Qed.

(** Whatever its outcome and whatever [overwrite] is, [run_all] removes
    no directory and puts no file in the place of one. *)
Theorem run_all_keeps_directories filename cfg summary_file output_dir
    overwrite fs r fs' :
  run_all filename cfg summary_file output_dir overwrite fs = (r, fs') →
  ∀ q, fs !! q = Some Dir → fs' !! q = Some Dir.
Proof. intros Hrun. by eapply run_all_dirs. Qed.

End Dirs.

(** *** The paths a run touches *)

Lemma file_check_outside some_file output_dir overwrite :
  keeps (same_outside {[output_path some_file output_dir]})
    (_file_check some_file output_dir overwrite).
Proof.
  intros fs r fs' Hc q Hq. eapply file_check_frame; [done|]. set_solver.
Qed.

Section Outside.
Context `{Core}.

Lemma prepare_output_dir_outside output_dir overwrite :
  keeps (same_outside {[output_dir]}) (prepare_output_dir output_dir overwrite).
Proof.
  intros fs r fs' Hp q Hq. assert (q ≠ output_dir) as Hne by set_solver.
  revert Hp.
  unfold prepare_output_dir, bind, os_path.exists_, os_path.isdir, os.remove,
    os.mkdir, raise, ret.
  destruct (fs !! output_dir) as [[c|]|] eqn:E; simpl; rewrite ?E.
  - destruct overwrite; simpl; [|by intros [= _ <-]].
    rewrite E, lookup_delete_eq. intros [= _ <-].
    by rewrite lookup_insert_ne, lookup_delete_ne.
  - by intros [= _ <-].
  - intros [= _ <-]. by rewrite lookup_insert_ne.
Qed.

Lemma prepare_summary_outside filenames summary_file output_dir overwrite :
  keeps (same_outside
           (if bool_decide (1 < length filenames)%nat
            then {[output_path summary_file output_dir]} else ∅))
    (prepare_summary filenames summary_file output_dir overwrite).
Proof.
  unfold prepare_summary. case_bool_decide; [|by apply keeps_still; [apply _|]].
  cbv zeta. case_bool_decide; simpl; [|by apply keeps_still; [apply _|]].
  apply keeps_bind; [apply _|apply file_check_outside|].
  intros p. by apply keeps_still; [apply _|].
Qed.

Lemma process_file_outside cfg output_dir overwrite f :
  keeps (same_outside {[excel_path f output_dir; html_path f output_dir]})
    (process_file cfg output_dir overwrite f).
Proof.
  intros fs r fs' Hp q Hq. eapply process_file_frame; [done|..]; set_solver.
Qed.

Lemma process_files_outside cfg output_dir overwrite l dfs fig :
  keeps (same_outside
           (list_to_set ((λ f, excel_path f output_dir) <$> l)
            ∪ list_to_set ((λ f, html_path f output_dir) <$> l)))
    (process_files cfg output_dir overwrite l dfs fig).
Proof.
  apply process_files_keeps; [apply _|]. intros f Hf.
  eapply keeps_weaken; [|apply process_file_outside].
  intros fs fs'. apply same_outside_mono.
  apply (list_elem_of_fmap_2 (λ f, excel_path f output_dir)) in Hf as Hx.
  apply (list_elem_of_fmap_2 (λ f, html_path f output_dir)) in Hf as Hh.
  set_solver.
Qed.

Lemma process_files_length cfg output_dir overwrite l dfs fig fs r fs' :
  process_files cfg output_dir overwrite l dfs fig fs = (Ok r, fs') →
  length r.1 = (length dfs + length l)%nat.
Proof.
  intros (ts & Hts & ->)%process_files_tables.
  rewrite length_app, length_zip_with, <- (Forall2_length _ _ _ Hts). lia.
Qed.

Lemma write_summary_outside dfs fig out_ext summary_file :
  keeps (same_outside
           (if bool_decide (1 < length dfs)%nat then {[summary_file]} else ∅))
    (write_summary dfs fig out_ext summary_file).
Proof.
  unfold write_summary. case_bool_decide; [|by apply keeps_still; [apply _|]].
  cbv zeta. destruct out_ext as [ext|]; [|by apply keeps_still; [apply _|]].
  assert (keeps (same_outside {[summary_file]})
            (write_file summary_file (Xlsx (pd.concat dfs)))) as Hx.
  { intros fs r fs' Hw q Hq. eapply write_file_frame; [done|]. set_solver. }
  assert (keeps (same_outside {[summary_file]})
            (write_file summary_file (Csv (pd.concat dfs)))) as Hc.
  { intros fs r fs' Hw q Hq. eapply write_file_frame; [done|]. set_solver. }
  repeat case_bool_decide; try (by apply keeps_still; [apply _|]);
    (apply keeps_bind; [apply _|done|]);
    intros _; by apply keeps_still; [apply _|].
Qed.

(** Whatever its outcome, [run_all] changes nothing but what is stored at
    the path of the output directory, at the path of the summary file (for
    several input files) and at the two output paths of each input, the
    paths taken as they are written. *)
Lemma run_all_frame filenames cfg summary_file output_dir
    overwrite fs r fs' :
  run_all (PyIterable filenames) cfg summary_file output_dir overwrite fs
    = (r, fs') →
  ∀ q, q ≠ output_dir →
       q ∉ output_paths filenames summary_file output_dir →
       fs' !! q = fs !! q.
Proof.
  intros Hrun q Hne Hq.
  assert (q ∉ ({[output_dir]} : gset string)) as Hq0 by set_solver.
  unfold output_paths in Hq.
  assert (q ∉ (if bool_decide (1 < length filenames)%nat
               then {[output_path summary_file output_dir]} else ∅ : gset string))
    as Hq1 by set_solver.
  assert (q ∉ (list_to_set ((λ f, excel_path f output_dir) <$> filenames)
               ∪ list_to_set ((λ f, html_path f output_dir) <$> filenames)
               : gset string)) as Hq2 by set_solver.
  clear Hq. revert Hrun. unfold run_all. simpl.
  destruct (bool_decide (length filenames = 0%nat));
    [unfold raise; by intros [= _ <-]|]. intros Hrun.
  apply bind_inv in Hrun as [(e & Hd & _)|(u & fs1 & Hd & Hrun)].
  { by eapply prepare_output_dir_outside. }
  apply prepare_output_dir_outside in Hd. rewrite <- (Hd q Hq0).
  apply bind_inv in Hrun as [(e & Hs & _)|(s & fs2 & Hs & Hrun)].
  { by eapply prepare_summary_outside. }
  pose proof (prepare_summary_outside _ _ _ _ _ _ _ Hs q Hq1) as <-.
  apply bind_inv in Hrun as [(e & Hl & _)|(rl & fs3 & Hl & Hrun)].
  { by eapply process_files_outside. }
  pose proof (process_files_outside _ _ _ _ _ _ _ _ _ Hl q Hq2) as <-.
  apply process_files_length in Hl. simpl in Hl.
  apply write_summary_outside in Hrun. apply Hrun. rewrite Hl.
  destruct (decide (1 < length filenames)%nat) as [Hlen|Hlen].
  - apply prepare_summary_ok in Hs as (ext & _ & _ & -> & _); [|done].
    simpl. by rewrite bool_decide_eq_true_2 in * by done.
  - by rewrite bool_decide_eq_false_2 by done.
Qed.

End Outside.

(** *** Runs without [overwrite] *)

Lemma file_check_false some_file output_dir fs r fs' :
  _file_check some_file output_dir false fs = (r, fs') →
  fs' = fs ∧
  ∀ p, r = Ok p → p = output_path some_file output_dir ∧ fs !! p = None.
Proof.
  rewrite file_check_unfold. simpl.
  destruct (fs !! output_path some_file output_dir) eqn:E;
    intros [= <- <-]; split; try done.
  by intros p [= <-].
Qed.

Lemma write_file_absent p c fs :
  fs !! p = None → write_file p c fs = (Ok (), <[p := File c]> fs).
Proof. unfold write_file. by intros ->. Qed.

Lemma write_file_any p c fs r fs' :
  write_file p c fs = (r, fs') → fs' = fs ∨ fs' = <[p := File c]> fs.
Proof.
  unfold write_file. destruct (fs !! p) as [[?|]|]; intros [= <- <-]; auto.
Qed.

Section NoOverwrite.
Context `{Core}.

Lemma prepare_output_dir_no_overwrite output_dir :
  keeps (⊆) (prepare_output_dir output_dir false).
Proof.
  intros fs r fs'.
  unfold prepare_output_dir, bind, os_path.exists_, os_path.isdir, os.mkdir,
    raise, ret.
  destruct (fs !! output_dir) as [[c|]|] eqn:E; simpl; rewrite ?E;
    intros [= _ <-]; try done.
  by apply insert_subseteq.
Qed.

Lemma process_file_no_overwrite cfg output_dir f :
  keeps (⊆) (process_file cfg output_dir false f).
Proof.
  intros fs r fs' Hp. unfold process_file in Hp.
  pose proof (excel_html_ne f output_dir) as Hne.
  apply bind_inv in Hp as [(e & Hx & _)|(x & fs1 & Hx & Hp)];
    apply file_check_false in Hx as [-> Hx]; [done|].
  destruct (Hx x eq_refl) as [-> Ex]. clear Hx.
  apply bind_inv in Hp as [(e & Hh & _)|(h & fs2 & Hh & Hp)];
    apply file_check_false in Hh as [-> Hh]; [done|].
  destruct (Hh h eq_refl) as [-> Eh]. clear Hh.
  fold (excel_path f output_dir) in *. fold (html_path f output_dir) in *.
  apply bind_inv in Hp as [(e & Ha & _)|(atom_df & fs3 & Ha & Hp)];
    unfold get_macrocycles in Ha; injection Ha as _ <-; [done|].
  apply bind_inv in Hp as [(e & He & _)|(te & fs4 & He & Hp)];
    unfold get_ellipticity, lift in He; injection He as _ <-; [done|].
  assert (∀ c, fs ⊆ <[excel_path f output_dir := File c]> fs) as Sx
    by (intros c; by apply insert_subseteq).
  assert (∀ c d, fs ⊆ <[html_path f output_dir := File d]>
                        (<[excel_path f output_dir := File c]> fs)) as Sh.
  { intros c d. by apply insert_subseteq_r. }
  unfold to_excel in Hp.
  rewrite (bind_ok _ _ _ _ _ (write_file_absent _ (Xlsx te.1) _ Ex)) in Hp.
  apply bind_inv in Hp as [(e & Hf & _)|(fig & fs6 & Hf & Hp)].
  2: injection Hp as _ <-.
  all: unfold plot_results in Hf.
  all: apply bind_inv in Hf as [(e' & Hr & _)|(fd & fs7 & Hr & Hf)];
    unfold lift in Hr; injection Hr as _ <-; [done|].
  all: apply bind_inv in Hf as [(e' & Hw' & _)|(u' & fs8 & Hw' & Hf)];
    apply write_file_any in Hw' as [-> | ->]; try done.
  all: by injection Hf as _ <-.
Qed.

Lemma write_summary_any dfs fig out_ext summary_file fs r fs' :
  write_summary dfs fig out_ext summary_file fs = (r, fs') →
  fs' = fs ∨ ((1 < length dfs)%nat ∧ ∃ c, fs' = <[summary_file := File c]> fs).
Proof.
  unfold write_summary. case_bool_decide as Hlen; [|intros [= _ <-]; by left].
  cbv zeta. destruct out_ext as [ext|]; [|intros [= _ <-]; by left].
  repeat case_bool_decide; [| |intros [= _ <-]; by left].
  all: intros Hw. 
  all: apply bind_inv in Hw as [(e & Hw & _)|(u & fs1 & Hw & Hr)];
    [|injection Hr as _ <-];
    apply write_file_any in Hw as [-> | ->]; eauto.
Qed.

(** Without [overwrite], whatever [run_all] comes to, everything that was
    in the file system before is there afterwards, unchanged. *)
Theorem no_overwrite_keeps_existing filename cfg summary_file output_dir
    fs r fs' :
  run_all filename cfg summary_file output_dir false fs = (r, fs') →
  ∀ q n, fs !! q = Some n → fs' !! q = Some n.
Proof.
  intros Hrun. apply map_subseteq_spec. revert Hrun. unfold run_all.
  set (filenames := if hasattr_iter filename then _ else _).
  destruct (bool_decide (length filenames = 0%nat));
    [unfold raise; by intros [= _ <-]|]. intros Hrun.
  apply bind_inv in Hrun as [(e & Hd & _)|(u & fs1 & Hd & Hrun)];
    apply prepare_output_dir_no_overwrite in Hd; [done|].
  apply bind_inv in Hrun as [(e & Hs & _)|(s & fs2 & Hs & Hrun)].
  { revert Hs. unfold prepare_summary. case_bool_decide; [|done].
    cbv zeta. case_bool_decide; simpl; [|by intros [= _ <-]].
    intros Hs. apply bind_inv in Hs as [(e' & Hc & _)|(p & fs2 & Hc & Hs)];
      [|done]. by apply file_check_false in Hc as [-> _]. }
  assert (fs2 = fs1 ∧
          ((1 < length filenames)%nat →
           s.2 = output_path summary_file output_dir ∧ fs1 !! s.2 = None))
    as [-> HS].
  { destruct (decide (1 < length filenames)%nat) as [Hlen|Hlen].
    - apply prepare_summary_ok in Hs as (ext & _ & _ & -> & Hc); [|done].
      apply file_check_false in Hc as [-> Hc].
      destruct (Hc _ eq_refl) as [_ Hn]. by split.
    - rewrite prepare_summary_single in Hs by done.
      injection Hs as <- <-. by split. }
  apply bind_inv in Hrun as [(e & Hl & _)|(rl & fs3 & Hl & Hrun)].
  { etrans; [exact Hd|]. revert Hl. apply process_files_keeps; [apply _|].
    intros f _. apply process_file_no_overwrite. }
  assert (fs1 ⊆ fs3) as H13.
  { revert Hl. apply process_files_keeps; [apply _|].
    intros f _. apply process_file_no_overwrite. }
  apply process_files_length in Hl. simpl in Hl.
  apply write_summary_any in Hrun as [-> | [Hlen (c & ->)]].
  - by etrans.
  - rewrite Hl in Hlen. destruct (HS Hlen) as [_ Hn].
    apply insert_subseteq_r; [|by etrans].
    destruct (fs !! s.2) as [n|] eqn:E; [|done].
    eapply lookup_weaken in E; [|exact Hd]. congruence.
Qed.

End NoOverwrite.

(** *** The output directory and the summary file name *)

Section Setup.
Context `{Core}.

Lemma prepare_output_dir_file_refused output_dir fs c :
  fs !! output_dir = Some (File c) →
  prepare_output_dir output_dir false fs
    = (Raise (FileExistsError (not_a_directory_msg output_dir)), fs).
Proof.
  intros E. unfold prepare_output_dir, bind, os_path.exists_, os_path.isdir,
    raise, not_a_directory_msg.
  rewrite E. simpl. by rewrite E.
Qed.

Lemma prepare_output_dir_file_replaced output_dir fs c :
  fs !! output_dir = Some (File c) →
  prepare_output_dir output_dir true fs = (Ok (), <[output_dir := Dir]> fs).
Proof.
  intros E. unfold prepare_output_dir, bind, os_path.exists_, os_path.isdir,
    os.remove, os.mkdir.
  rewrite E. simpl. rewrite E. simpl. rewrite E, lookup_delete_eq.
  by rewrite insert_delete_eq.
Qed.

Lemma prepare_output_dir_present output_dir overwrite fs :
  fs !! output_dir = Some Dir →
  prepare_output_dir output_dir overwrite fs = (Ok (), fs).
Proof.
  intros E. unfold prepare_output_dir, bind, os_path.exists_, os_path.isdir,
    ret.
  rewrite E. simpl. by rewrite E.
Qed.

(** A regular file where the output directory should be: without
    [overwrite] the run stops with [FileExistsError] and nothing is
    changed; with [overwrite] the file is replaced by a directory and the
    run goes on as if the directory had been there. *)
Theorem output_dir_is_a_file filenames cfg summary_file output_dir fs c :
  fs !! output_dir = Some (File c) →
  filenames ≠ [] →
  run_all (PyIterable filenames) cfg summary_file output_dir false fs
    = (Raise (FileExistsError (not_a_directory_msg output_dir)), fs)
  ∧ run_all (PyIterable filenames) cfg summary_file output_dir true fs
    = run_all (PyIterable filenames) cfg summary_file output_dir true
        (<[output_dir := Dir]> fs).
Proof.
  intros E Hne. unfold run_all. simpl.
  rewrite bool_decide_eq_false_2 by (by destruct filenames).
  split.
  - apply bind_raise. by eapply prepare_output_dir_file_refused.
  - rewrite (bind_ok _ _ _ _ _ (prepare_output_dir_file_replaced _ _ _ E)).
    by rewrite (bind_ok _ _ _ _ _
                  (prepare_output_dir_present output_dir true _
                     (lookup_insert_eq fs output_dir Dir))).
Qed.

(** For several input files a summary file name that ends neither in
    [xlsx] nor in [csv] is turned down with [ValueError] before any input
    is read, but after the output directory has been made. *)
Theorem bad_summary_extension filenames cfg summary_file output_dir
    overwrite fs fs1 :
  (1 < length filenames)%nat →
  PyStr.last_item (PyStr.split "." summary_file) ∉ ["xlsx"; "csv"] →
  prepare_output_dir output_dir overwrite fs = (Ok (), fs1) →
  run_all (PyIterable filenames) cfg summary_file output_dir overwrite fs
    = (Raise (ValueError (summary_extension_msg summary_file)), fs1)
  ∧ fs1 !! output_dir = Some Dir.
Proof.
  intros Hlen Hext Hd. split; [|by apply prepare_output_dir_ok in Hd as [? _]].
  unfold run_all. simpl. rewrite bool_decide_eq_false_2 by lia.
  rewrite (bind_ok _ _ _ _ _ Hd). apply bind_raise.
  unfold prepare_summary. rewrite bool_decide_eq_true_2 by done. cbv zeta.
  by rewrite bool_decide_eq_false_2 by done.
Qed.

(** For a single input file the summary file name plays no part: it is
    neither checked nor written. *)
Theorem single_file_ignores_summary filenames cfg summary_file summary_file'
    output_dir overwrite fs :
  (length filenames ≤ 1)%nat →
  run_all (PyIterable filenames) cfg summary_file output_dir overwrite fs
    = run_all (PyIterable filenames) cfg summary_file' output_dir overwrite fs.
Proof.
  intros Hlen. unfold run_all. simpl. case_bool_decide; [done|].
  unfold bind. destruct (prepare_output_dir _ _ _) as [[u|e] fs1]; [|done].
  rewrite !prepare_summary_single by lia. simpl.
  by destruct (process_files _ _ _ _ _ _ _) as [[r|e] fs2].
Qed.

End Setup.

(** *** Where the per-file output goes *)

Lemma drop_after_rfind c s :
  PyStr.contains c (PyStr.slice_from (PyStr.rfind c s + 1) s) = false.
Proof.
  unfold PyStr.slice_from. induction s as [|a s IH]; simpl; [done|].
  pose proof (rfind_bounds c s) as Hb.
  destruct (Z.leb_spec 0 (PyStr.rfind c s)) as [Hr|Hr].
  - replace (Z.to_nat (PyStr.rfind c s + 1 + 1))
      with (S (Z.to_nat (PyStr.rfind c s + 1))) by lia.
    exact IH.
  - assert (PyStr.contains c s = false) as Hc by (apply rfind_contains; lia).
    case_bool_decide as Ha; simpl.
    + by destruct s.
    + by rewrite bool_decide_eq_false_2, Hc by done.
Qed.

Lemma basename_bare p : PyStr.contains "/" (os_path.basename p) = false.
Proof. apply drop_after_rfind. Qed.

(** The two output files of an input go under [output_dir], under the
    base name of the input: the directory the input is in plays no part. *)
Theorem per_file_outputs_under_output_dir f output_dir :
  PyStr.contains "/" (os_path.basename f) = false ∧
  excel_path f output_dir
    = (if bool_decide (output_dir = EmptyString)
          || PyStr.endswith "/" output_dir
       then output_dir +:+ (os_path.basename f +:+ ".xlsx")
       else output_dir +:+ "/" +:+ (os_path.basename f +:+ ".xlsx")) ∧
  html_path f output_dir
    = (if bool_decide (output_dir = EmptyString)
          || PyStr.endswith "/" output_dir
       then output_dir +:+ (os_path.basename f +:+ ".html")
       else output_dir +:+ "/" +:+ (os_path.basename f +:+ ".html")).
Proof.
  pose proof (basename_bare f) as Hb. split_and!; [done|..];
    apply output_path_bare; by rewrite contains_app, Hb.
Qed.

(** ** Base names *)

Lemma string_length_app (s t : string) :
  String.length (s +:+ t) = (String.length s + String.length t)%nat.
Proof. induction s as [|a s IH]; simpl; [done|]. by rewrite IH. Qed.

Lemma basename_cons c s :
  os_path.basename (String c s) =
    if PyStr.contains "/" s then os_path.basename s
    else if bool_decide (c = "/"%char) then s else String c s.
Proof.
  unfold os_path.basename, PyStr.slice_from, os_path.sep. simpl.
  pose proof (rfind_bounds "/" s) as Hb.
  destruct (PyStr.contains "/" s) eqn:Hc.
  - assert (PyStr.rfind "/" s ≠ -1) as Hr
      by (intros Hr%rfind_contains; congruence).
    destruct (Z.leb_spec 0 (PyStr.rfind "/" s)); [|lia].
    by replace (Z.to_nat (PyStr.rfind "/" s + 1 + 1))
      with (S (Z.to_nat (PyStr.rfind "/" s + 1))) by lia.
  - apply rfind_contains in Hc. rewrite Hc. simpl.
    by case_bool_decide.
Qed.

Lemma basename_of_bare b :
  PyStr.contains "/" b = false → os_path.basename b = b.
Proof.
  intros Hc%rfind_contains.
  unfold os_path.basename, PyStr.slice_from, os_path.sep. by rewrite Hc.
Qed.

Lemma endswith_contains c s :
  PyStr.endswith c s = true → PyStr.contains c s = true.
Proof.
  induction s as [|a s IH]; simpl; [done|].
  destruct s as [|a' s'].
  - intros ->. done.
  - intros Hs. rewrite (IH Hs). by rewrite orb_true_r.
Qed.

Lemma basename_app_slash a b :
  PyStr.contains "/" b = false →
  os_path.basename (a +:+ String "/" b) = b.
Proof.
  intros Hb. induction a as [|c a IH].
  - change (os_path.basename (String "/" b) = b).
    rewrite basename_cons, Hb. by rewrite bool_decide_eq_true_2 by done.
  - change (os_path.basename (String c (a +:+ String "/" b)) = b).
    rewrite basename_cons, contains_app. simpl.
    by rewrite orb_true_r.
Qed.

Lemma basename_app_end a b :
  PyStr.contains "/" b = false →
  a = EmptyString ∨ PyStr.endswith "/" a = true →
  os_path.basename (a +:+ b) = b.
Proof.
  intros Hb. induction a as [|c a IH]; intros Ha.
  - by apply basename_of_bare.
  - destruct Ha as [Ha|Ha]; [done|].
    change (os_path.basename (String c (a +:+ b)) = b).
    rewrite basename_cons, contains_app, Hb, orb_false_r.
    destruct (PyStr.contains "/" a) eqn:Hc.
    + apply IH. right. destruct a; [done|]. exact Ha.
    + destruct a as [|a' s'].
      * simpl in Ha. by rewrite Ha.
      * apply (endswith_contains "/" (String a' s')) in Ha. congruence.
Qed.

Lemma basename_output_path b output_dir :
  PyStr.contains "/" b = false →
  os_path.basename (output_path b output_dir) = b.
Proof.
  intros Hb. rewrite output_path_bare by done.
  destruct (bool_decide (output_dir = EmptyString)
            || PyStr.endswith "/" output_dir) eqn:E.
  - apply basename_app_end; [done|].
    apply orb_true_iff in E as [E|E]; [left|by right].
    by apply bool_decide_eq_true in E.
  - by apply basename_app_slash.
Qed.

(** An input file is never one of its own two output files. *)
Lemma input_not_output f output_dir :
  f ≠ excel_path f output_dir ∧ f ≠ html_path f output_dir.
Proof.
  assert (∀ ext, PyStr.contains "/" ext = false → ext ≠ EmptyString →
                 f ≠ output_path (os_path.basename f +:+ ext) output_dir)
    as Hext.
  { intros ext Hc Hne E. apply (f_equal os_path.basename) in E.
    rewrite basename_output_path in E
      by (by rewrite contains_app, basename_bare, Hc).
    apply (f_equal String.length) in E. rewrite string_length_app in E.
    destruct ext; [done|]. simpl in E. lia. }
  split; by apply Hext.
Qed.

(** ** The tables, by the file they were read from *)

Lemma tagged_file_cells f t :
  (λ r, pd.cell_at r "file") <$> tagged_rows f t = file_cells f t.
Proof.
  unfold tagged_rows, file_cells.
  induction (pd.rows t) as [|r rs IH]; simpl; [done|].
  f_equal; [|done]. unfold pd.cell_at. by rewrite lookup_insert_eq.
Qed.

Lemma rows_zip_tagged (l : list string) ts :
  pd.rows <$> zip_with tagged l ts = zip_with tagged_rows l ts.
Proof.
  revert ts. induction l as [|f l IH]; intros [|t ts]; simpl; [done..|].
  by rewrite IH.
Qed.

Lemma file_cells_zip (l : list string) ts :
  (λ r, pd.cell_at r "file") <$> mjoin (zip_with tagged_rows l ts)
  = mjoin (zip_with file_cells l ts).
Proof.
  revert ts. induction l as [|f l IH]; intros [|t ts]; simpl; [done..|].
  by rewrite fmap_app, tagged_file_cells, IH.
Qed.

Section Provenance.
Context `{Core}.

Lemma process_file_table_read cfg output_dir overwrite f fs r fs' :
  process_file cfg output_dir overwrite f fs = (Ok r, fs') →
  ∃ t, table_read cfg f fs t ∧ r.1 = tagged f t.
Proof.
  intros (fs1 & fs2 & atom_df & t & pca & fig & doc &
          Hx & Hh & Ha & He & Hr & -> & ->)%process_file_ok.
  destruct (input_not_output f output_dir) as [Nx Nh].
  apply file_check_ok in Hx as (_ & _ & Fx & _).
  apply file_check_ok in Hh as (_ & _ & Fh & _).
  rewrite Fh, Fx in Ha by done.
  exists t. split; [|done]. by exists atom_df, pca.
Qed.

Lemma process_files_tables_read cfg output_dir overwrite l dfs fig fs r fs' :
  process_files cfg output_dir overwrite l dfs fig fs = (Ok r, fs') →
  ∃ ts,
    length ts = length l ∧
    r.1 = dfs ++ zip_with tagged l ts ∧
    ∀ i f t, l !! i = Some f → ts !! i = Some t →
      ∃ ri fs_i,
        process_files cfg output_dir overwrite (take i l) dfs fig fs
          = (Ok ri, fs_i) ∧
        table_read cfg f fs_i t.
Proof.
  revert dfs fig fs. induction l as [|f0 l IH]; intros dfs fig fs; simpl.
  - intros [= <- <-]. exists []. split_and!; [done|by rewrite app_nil_r|].
    by intros i f t Hf.
  - intros Hp. bind_inv Hp.
    destruct (process_file_table_read _ _ _ _ _ _ _ Hm) as (t0 & Ht0 & Ha).
    apply IH in Hp as (ts & Hlen & -> & Hts).
    exists (t0 :: ts). split_and!.
    + simpl. by rewrite Hlen.
    + simpl. by rewrite Ha, <- app_assoc.
    + intros [|i] f t Hf Ht; simpl in *.
      * injection Hf as <-. injection Ht as <-. by exists (dfs, fig), fs.
      * destruct (Hts i f t Hf Ht) as (ri & fs_i & Hi & Hread).
        exists ri, fs_i. split; [|done].
        by rewrite (bind_ok _ _ _ _ _ Hm).
Qed.

Lemma run_all_summary_read filenames cfg summary_file output_dir overwrite
    fs v fs' :
  run_all (PyIterable filenames) cfg summary_file output_dir overwrite fs
    = (Ok v, fs') →
  (1 < length filenames)%nat →
  ∃ ts,
    length ts = length filenames ∧
    (∀ i f t, filenames !! i = Some f → ts !! i = Some t →
       ∃ fs_i,
         reaches cfg summary_file output_dir overwrite filenames
           (take i filenames) fs fs_i ∧
         table_read cfg f fs_i t) ∧
    holds_table fs' (output_path summary_file output_dir)
      (pd.concat (zip_with tagged filenames ts)).
Proof.
  intros (fs1 & s & fs2 & r & fs3 & Hd & Hs & Hl & Hw)%run_all_ok Hlen.
  pose proof Hl as (ts & Hts & Hr & Hread)%process_files_tables_read.
  exists ts. split_and!; [done|..].
  - intros i f t Hf Ht. destruct (Hread i f t Hf Ht) as (ri & fs_i & Hi & Hrd).
    exists fs_i. split; [|done]. by exists fs1, s, fs2, ri.
  - apply prepare_summary_ok in Hs as (ext & _ & Hext & -> & _); [|done].
    simpl in Hr, Hw. rewrite Hr in Hw.
    apply write_summary_ok in Hw as (_ & Hw & _); [done| |done].
    rewrite length_zip_with. lia.
Qed.

(** C2: a run over more than one file that comes through leaves, at the
    summary path, one table: the concatenation of the tables of the input
    files, each computed from what the file held when its turn came, each
    with the name of its file in every row under [file].  The rows of the
    summary are exactly the tagged rows of these tables, and its [file]
    column reads, block by block, the name of the file the block came
    from. *)
Theorem summary_rows_carry_file filenames cfg summary_file output_dir
    overwrite fs v fs' :
  run_all (PyIterable filenames) cfg summary_file output_dir overwrite fs
    = (Ok v, fs') →
  (1 < length filenames)%nat →
  ∃ ts out_df,
    length ts = length filenames ∧
    (∀ i f t, filenames !! i = Some f → ts !! i = Some t →
       ∃ fs_i,
         reaches cfg summary_file output_dir overwrite filenames
           (take i filenames) fs fs_i ∧
         table_read cfg f fs_i t) ∧
    out_df = pd.concat (zip_with tagged filenames ts) ∧
    holds_table fs' (output_path summary_file output_dir) out_df ∧
    "file" ∈ pd.columns out_df ∧
    pd.rows out_df = mjoin (zip_with tagged_rows filenames ts) ∧
    (λ r, pd.cell_at r "file") <$> pd.rows out_df
      = mjoin (zip_with file_cells filenames ts) ∧
    ∀ r, r ∈ pd.rows out_df →
         ∃ i f t r0, filenames !! i = Some f ∧ ts !! i = Some t ∧
                     r0 ∈ pd.rows t ∧
                     r = <["file" := pd.CStr f]> r0.
Proof.
  intros Hrun Hlen.
  destruct (run_all_summary_read _ _ _ _ _ _ _ _ Hrun Hlen)
    as (ts & Hts & Hread & Hw).
  assert (pd.rows (pd.concat (zip_with tagged filenames ts))
          = mjoin (zip_with tagged_rows filenames ts)) as Hrows.
  { simpl. by rewrite rows_zip_tagged. }
  exists ts, (pd.concat (zip_with tagged filenames ts)).
  split_and!; [done|done|done|done|..|done| |].
  - destruct filenames as [|f l]; [simpl in Hlen; lia|].
    destruct ts as [|t ts']; [done|].
    apply (concat_columns _ (tagged f t)); [simpl; by left|].
    apply setitem_columns.
  - by rewrite Hrows, file_cells_zip.
  - intros r Hr. rewrite Hrows in Hr.
    apply list_elem_of_join in Hr as (rs & Hr & Hrs).
    apply elem_of_lookup_zip_with in Hrs as (i & f & t & -> & Hf & Ht).
    apply list_elem_of_fmap in Hr as (r0 & -> & Hr0).
    by exists i, f, t, r0.
Qed.

End Provenance.

(** ** The per-file table, for a core as the spec describes it *)


(** *** [_file_check] again *)

(** A second [_file_check] of a name that went through finds nothing in
    the way: it returns the same path and changes nothing, whatever
    [overwrite] is then. *)
Theorem file_check_twice some_file output_dir overwrite overwrite' fs p fs' :
  _file_check some_file output_dir overwrite fs = (Ok p, fs') →
  _file_check some_file output_dir overwrite' fs' = (Ok p, fs').
Proof.
  intros (-> & Hn & _)%file_check_ok. by apply file_check_fresh.
Qed.

(** *** What a run returns and leaves *)

Lemma filter_not_in_nil (l : list string) : filter (λ c, c ∉ []) l = l.
Proof.
  induction l as [|x l IH]; [done|].
  rewrite filter_cons_True by apply not_elem_of_nil. by rewrite IH.
Qed.

Lemma filter_not_in_self (l acc : list string) :
  (∀ x, x ∈ l → x ∈ acc) → filter (λ c, c ∉ acc) l = [].
Proof.
  induction l as [|x l IH]; intros Hl; [done|].
  rewrite filter_cons_False by (intros Hx; apply Hx, Hl; by left).
  apply IH. intros y Hy. apply Hl. by right.
Qed.

Lemma foldl_add_columns_same dfs cols :
  Forall (λ df, pd.columns df = cols) dfs →
  foldl pd.add_columns cols dfs = cols.
Proof.
  induction 1 as [|df dfs Hdf _ IH]; simpl; [done|].
  unfold pd.add_columns at 2. rewrite Hdf, filter_not_in_self by done.
  by rewrite app_nil_r.
Qed.

(** Frames with the same columns concatenate to a frame with these
    columns. *)
Lemma concat_same_columns dfs cols :
  dfs ≠ [] →
  Forall (λ df, pd.columns df = cols) dfs →
  pd.columns (pd.concat dfs) = cols.
Proof.
  intros Hne Hall. unfold pd.concat. simpl.
  destruct Hall as [|df dfs Hdf Hall]; [done|]. simpl.
  unfold pd.add_columns at 2. rewrite Hdf, filter_not_in_nil. simpl.
  by apply foldl_add_columns_same.
Qed.

Section Results.
Context `{Core}.

Lemma process_files_fig cfg output_dir overwrite l dfs fig fs r fs' :
  process_files cfg output_dir overwrite l dfs fig fs = (Ok r, fs') →
  is_Some fig ∨ l ≠ [] → is_Some r.2.
Proof.
  revert dfs fig fs. induction l as [|f l IH]; intros dfs fig fs; simpl.
  - intros [= <- <-] [?|?]; done.
  - intros Hp _. bind_inv Hp. eapply IH; [exact Hp|]. left. by eexists.
Qed.

Lemma run_all_nonempty filenames cfg summary_file output_dir overwrite fs v fs' :
  run_all (PyIterable filenames) cfg summary_file output_dir overwrite fs
    = (Ok v, fs') →
  filenames ≠ [].
Proof. unfold run_all. simpl. by intros ? ->. Qed.

(** A run that comes through returns [None] for several input files and a
    figure for a single one. *)
Theorem run_all_returns filenames cfg summary_file output_dir overwrite
    fs v fs' :
  run_all (PyIterable filenames) cfg summary_file output_dir overwrite fs
    = (Ok v, fs') →
  v = None ↔ (1 < length filenames)%nat.
Proof.
  intros Hrun. pose proof (run_all_nonempty _ _ _ _ _ _ _ _ Hrun) as Hne.
  apply run_all_ok in Hrun as (fs1 & s & fs2 & r & fs3 & Hd & Hs & Hl & Hw).
  pose proof (process_files_length _ _ _ _ _ _ _ _ _ Hl) as Hlen.
  simpl in Hlen.
  destruct (decide (1 < length filenames)%nat) as [Hgt|Hle].
  - split; [done|intros _].
    apply prepare_summary_ok in Hs as (ext & _ & Hext & -> & _); [|done].
    apply write_summary_ok in Hw as [-> _]; [done| |done]. by rewrite Hlen.
  - split; [|done]. intros ->. exfalso.
    destruct (process_files_fig _ _ _ _ _ _ _ _ _ Hl) as [fig Hfig];
      [by right|].
    revert Hw. unfold write_summary.
    rewrite bool_decide_eq_false_2 by (by rewrite Hlen).
    rewrite Hfig. by intros [= ?].
Qed.

(** A run on a single file that comes through leaves the table of the
    file at its [.xlsx] path and the rendered document at its [.html]
    path, in an output directory that is a directory, and returns the
    figure. *)
Theorem single_file_run f cfg summary_file output_dir overwrite fs v fs' :
  run_all (PyString f) cfg summary_file output_dir overwrite fs = (Ok v, fs') →
  ∃ t atom_df pca fig doc,
    ellipticity_table cfg f t ∧
    render atom_df (html_path f output_dir) pca = Ok (fig, doc) ∧
    v = Some fig ∧
    fs' !! excel_path f output_dir = Some (File (Xlsx t)) ∧
    fs' !! html_path f output_dir = Some (File (Raw doc)) ∧
    fs' !! output_dir = Some Dir.
Proof.
  intros Hrun.
  pose proof (run_all_dirs _ _ _ _ _ _ _ _ Hrun) as Hdirs.
  change (run_all (PyIterable [f]) cfg summary_file output_dir overwrite fs
          = (Ok v, fs')) in Hrun.
  apply run_all_ok in Hrun as (fs1 & s & fs2 & r & fs3 & Hd & Hs & Hl & Hw).
  rewrite prepare_summary_single in Hs by (simpl; lia).
  injection Hs as <- <-. simpl in Hl. bind_inv Hl. injection Hl as <- <-.
  simpl in Hw. injection Hw as <- <-.
  pose proof (process_file_dirs _ _ _ _ _ _ _ Hm) as Hdirs'.
  apply prepare_output_dir_ok in Hd as [Hd _].
  apply process_file_ok in Hm
    as (a1 & a2 & atom_df & t & pca & fig & doc &
        Hx & Hh & Ha & He & Hr & -> & ->).
  exists t, atom_df, pca, fig, doc. split_and!; try done.
  - by exists (a2 !! f), atom_df, pca.
  - by rewrite lookup_insert_ne, lookup_insert_eq
      by (symmetry; apply excel_html_ne).
  - apply lookup_insert_eq.
  - by apply Hdirs'.
Qed.

(** A run that comes through leaves the output directory as a directory. *)
Theorem output_dir_after_run filenames cfg summary_file output_dir overwrite
    fs v fs' :
  run_all (PyIterable filenames) cfg summary_file output_dir overwrite fs
    = (Ok v, fs') →
  fs' !! output_dir = Some Dir.
Proof.
  intros (fs1 & s & fs2 & r & fs3 & Hd & Hs & Hl & Hw)%run_all_ok.
  apply prepare_output_dir_ok in Hd as [Hd _].
  apply prepare_summary_dirs in Hs.
  assert (dirs_stay fs2 fs3) as Hl'.
  { revert Hl. apply process_files_keeps; [apply _|].
    intros g _. apply process_file_dirs. }
  apply write_summary_dirs in Hw. auto.
Qed.

(** When [get_ellipticity] gives every file a table with the same
    columns, none of them named [file], the summary has these columns
    followed by [file]. *)
Theorem summary_columns filenames cfg summary_file output_dir overwrite
    fs v fs' cols :
  run_all (PyIterable filenames) cfg summary_file output_dir overwrite fs
    = (Ok v, fs') →
  (1 < length filenames)%nat →
  (∀ f t, ellipticity_table cfg f t → pd.columns t = cols) →
  "file" ∉ cols →
  ∃ out_df,
    holds_table fs' (output_path summary_file output_dir) out_df ∧
    pd.columns out_df = cols ++ ["file"].
Proof.
  intros Hrun Hlen Hcols Hfile.
  destruct (run_all_summary _ _ _ _ _ _ _ _ Hrun Hlen) as (ts & Hts & Hw).
  eexists. split; [exact Hw|].
  apply concat_same_columns.
  - destruct Hts; [simpl in Hlen; lia|done].
  - apply Forall_forall. intros df Hdf.
    apply elem_of_lookup_zip_with in Hdf as (i & f & t & -> & Hf & Ht).
    unfold tagged, pd.setitem. simpl.
    rewrite (Hcols f t) by (by eapply Forall2_lookup_lr).
    by rewrite bool_decide_eq_false_2.
Qed.

Lemma process_files_written cfg output_dir l dfs fig fs r fs' :
  process_files cfg output_dir false l dfs fig fs = (Ok r, fs') →
  ∀ g, g ∈ l → is_Some (fs' !! excel_path g output_dir).
Proof.
  revert dfs fig fs. induction l as [|f l IH]; intros dfs fig fs; simpl.
  - intros _ g Hg. by apply elem_of_nil in Hg.
  - intros Hp g Hg. bind_inv Hp.
    apply elem_of_cons in Hg as [->|Hg]; [|by eapply IH].
    apply process_file_table in Hm as (t & _ & Hx & _).
    assert (fs0 ⊆ fs') as Hsub.
    { revert Hp. apply process_files_keeps; [apply _|].
      intros g _. apply process_file_no_overwrite. }
    eexists. by eapply lookup_weaken.
Qed.

(** Without [overwrite], an input whose base name is that of an input
    before it in the batch cannot be processed: its [.xlsx] path is taken,
    and [run_all] raises [FileExistsError] when it comes to it. *)
Theorem same_basename_refused cfg summary_file output_dir done f rest g
    fs fs' :
  g ∈ done →
  os_path.basename g = os_path.basename f →
  reaches cfg summary_file output_dir false (done ++ f :: rest) done fs fs' →
  run_all (PyIterable (done ++ f :: rest)) cfg summary_file output_dir
    false fs
    = (Raise (FileExistsError (file_exists_msg (excel_path f output_dir))),
       fs').
Proof.
  intros Hg Hbase Hreach.
  eapply run_all_raise_at; [exact Hreach|].
  destruct Hreach as (fs1 & s & fs2 & r & _ & _ & Hl).
  destruct (process_files_written _ _ _ _ _ _ _ _ Hl g Hg) as [n Hn].
  unfold excel_path in Hn. rewrite Hbase in Hn.
  unfold process_file. apply bind_raise. by eapply file_check_refuses.
Qed.

End Results.

Section Fresh.
Context `{Core}.

Lemma process_files_fresh cfg output_dir l dfs fig fs r fs' :
  process_files cfg output_dir false l dfs fig fs = (Ok r, fs') →
  ∀ g, g ∈ l →
       fs !! excel_path g output_dir = None ∧
       fs !! html_path g output_dir = None.
Proof.
  revert dfs fig fs. induction l as [|f l IH]; intros dfs fig fs; simpl.
  - intros _ g Hg. by apply elem_of_nil in Hg.
  - intros Hp g Hg. bind_inv Hp.
    apply elem_of_cons in Hg as [->|Hg].
    + apply process_file_ok in Hm
        as (a1 & a2 & _ & _ & _ & _ & _ & Hx & Hh & _).
      apply file_check_false in Hx as [-> Hx].
      apply file_check_false in Hh as [-> Hh].
      split; [by apply Hx|by apply Hh].
    + apply process_file_no_overwrite in Hm.
      destruct (IH _ _ _ Hp g Hg) as [Hx Hh].
      split.
      * destruct (fs !! excel_path g output_dir) eqn:E; [|done].
        eapply lookup_weaken in E; [|exact Hm]. congruence.
      * destruct (fs !! html_path g output_dir) eqn:E; [|done].
        eapply lookup_weaken in E; [|exact Hm]. congruence.
Qed.

(** A run without [overwrite] that comes through has made every one of
    its output files anew: none of the output paths existed before. *)
Theorem no_overwrite_outputs_are_new filenames cfg summary_file output_dir
    fs v fs' :
  run_all (PyIterable filenames) cfg summary_file output_dir false fs
    = (Ok v, fs') →
  ∀ q, q ∈ output_paths filenames summary_file output_dir → fs !! q = None.
Proof.
  intros (fs1 & s & fs2 & r & fs3 & Hd & Hs & Hl & Hw)%run_all_ok q Hq.
  apply prepare_output_dir_no_overwrite in Hd.
  assert (fs1 !! q = None) as Hn.
  { unfold output_paths in Hq.
    apply elem_of_union in Hq as [Hq|Hq]; [apply elem_of_union in Hq as [Hq|Hq]|].
    - destruct (decide (1 < length filenames)%nat) as [Hlen|Hlen].
      + rewrite bool_decide_eq_true_2 in Hq by done.
        apply elem_of_singleton in Hq as ->.
        apply prepare_summary_ok in Hs as (ext & _ & _ & _ & Hc); [|done].
        apply file_check_false in Hc as [_ Hc]. by apply Hc.
      + rewrite bool_decide_eq_false_2 in Hq by done. set_solver.
    - assert (fs2 = fs1) as ->.
      { destruct (decide (1 < length filenames)%nat) as [Hlen|Hlen].
        - apply prepare_summary_ok in Hs as (ext & _ & _ & _ & Hc); [|done].
          by apply file_check_false in Hc as [-> _].
        - rewrite prepare_summary_single in Hs by done. by injection Hs. }
      apply elem_of_list_to_set, list_elem_of_fmap in Hq as (g & -> & Hg).
      by apply (process_files_fresh _ _ _ _ _ _ _ _ Hl g Hg).
    - assert (fs2 = fs1) as ->.
      { destruct (decide (1 < length filenames)%nat) as [Hlen|Hlen].
        - apply prepare_summary_ok in Hs as (ext & _ & _ & _ & Hc); [|done].
          by apply file_check_false in Hc as [-> _].
        - rewrite prepare_summary_single in Hs by done. by injection Hs. }
      apply elem_of_list_to_set, list_elem_of_fmap in Hq as (g & -> & Hg).
      by apply (process_files_fresh _ _ _ _ _ _ _ _ Hl g Hg). }
  destruct (fs !! q) eqn:E; [|done].
  eapply lookup_weaken in E; [|exact Hd]. congruence.
Qed.

End Fresh.

(** *** The files a run leaves alone *)

(** With the output directory in place, whatever [run_all] comes to, a
    path whose last component is not the last component of one of the
    output paths keeps what it held.  Another spelling of an output file
    ends in the same component as the output path, so such a path names
    none of the files [run_all] writes or deletes: an input file, unless
    it bears the name of an output file, is left as it was. *)
Theorem run_all_touches_outputs_only `{Core} filenames cfg summary_file
    output_dir overwrite fs r fs' :
  fs !! output_dir = Some Dir →
  run_all (PyIterable filenames) cfg summary_file output_dir overwrite fs
    = (r, fs') →
  ∀ q, (∀ p, p ∈ output_paths filenames summary_file output_dir →
             os_path.basename p ≠ os_path.basename q) →
       fs' !! q = fs !! q.
Proof.
  intros Hdir Hrun q Hq.
  destruct (decide (q = output_dir)) as [->|Hne].
  - rewrite Hdir. by eapply run_all_dirs.
  - eapply run_all_frame; [done..|].
    intros Hin. by apply (Hq q Hin).
Qed.

(** *** An error after the table has been written *)

(** The table of a file is written before the file is plotted: when
    [plot_results] raises, [run_all] raises that error with the [.xlsx]
    file of that input already in place. *)
Theorem plot_failure_leaves_table `{Core} cfg summary_file output_dir
    overwrite done f rest fs fs' x fs3 h fs4 atom_df t pca e :
  reaches cfg summary_file output_dir overwrite (done ++ f :: rest) done fs fs' →
  _file_check (os_path.basename f +:+ ".xlsx") output_dir overwrite fs'
    = (Ok x, fs3) →
  _file_check (os_path.basename f +:+ ".html") output_dir overwrite fs3
    = (Ok h, fs4) →
  macrocycles_of f (fs4 !! f) cfg = Ok atom_df →
  ellipticity_of atom_df = Ok (t, pca) →
  render atom_df (html_path f output_dir) pca = Raise e →
  ∃ fs'',
    run_all (PyIterable (done ++ f :: rest)) cfg summary_file output_dir
      overwrite fs = (Raise e, fs'') ∧
    fs'' !! excel_path f output_dir = Some (File (Xlsx t)).
Proof.
  intros Hreach Hx Hh Ha He Hr.
  pose proof (excel_html_ne f output_dir) as Hne.
  pose proof Hx as (-> & Nx & _)%file_check_ok.
  pose proof Hh as (-> & Nh & Fh & _)%file_check_ok.
  fold (excel_path f output_dir) in *. fold (html_path f output_dir) in *.
  assert (fs4 !! excel_path f output_dir = None) as Nx4
    by (by rewrite Fh).
  exists (<[excel_path f output_dir := File (Xlsx t)]> fs4).
  split; [|apply lookup_insert_eq].
  eapply run_all_raise_at; [exact Hreach|].
  unfold process_file.
  rewrite (bind_ok _ _ _ _ _ Hx), (bind_ok _ _ _ _ _ Hh).
  unfold get_macrocycles, get_ellipticity, to_excel, plot_results, lift, bind.
  rewrite Ha, He. simpl.
  rewrite (write_file_absent _ _ _ Nx4).
  fold (html_path f output_dir). by rewrite Hr.
Qed.

(** * The sample data *)

Example split_bare :
  os_path.split "summary.xlsx" = (EmptyString, "summary.xlsx").
Proof. reflexivity. Qed.

Example split_dot : os_path.split "./file.txt" = (".", "file.txt").
Proof. reflexivity. Qed.

Example split_abs : os_path.split "/a/b/file.txt" = ("/a/b", "file.txt").
Proof. reflexivity. Qed.

Example split_root : os_path.split "/file.txt" = ("/", "file.txt").
Proof. reflexivity. Qed.

Example join_plain : os_path.join "out" "a.xlsx" = "out/a.xlsx".
Proof. reflexivity. Qed.

Example join_slash : os_path.join "out/" "a.xlsx" = "out/a.xlsx".
Proof. reflexivity. Qed.

Example basename_dir : os_path.basename "data/cb7.xyz" = "cb7.xyz".
Proof. reflexivity. Qed.

Example ext_of : PyStr.last_item (PyStr.split "." "a.b.csv") = "csv".
Proof. reflexivity. Qed.

Example ext_none : PyStr.last_item (PyStr.split "." "summary") = "summary".
Proof. reflexivity. Qed.

Example output_path_examples :
  output_path "summary.xlsx" "out" = "out/summary.xlsx" ∧
  output_path "./file.txt" "out" = "./file.txt" ∧
  output_path "/a/b/file.txt" "out" = "/a/b/file.txt" ∧
  output_path "../file.txt" "out" = "../file.txt".
Proof. by split_and!. Qed.

Lemma file_check_placement_witness :
  "out/summary.xlsx" = "out" +:+ "/" +:+ "summary.xlsx" ∧ "./file.txt" = "./file.txt".
Proof.
  split.
  - apply (file_check_placement "summary.xlsx" "out" false two_files
             "out/summary.xlsx" two_files).
    vm_compute; reflexivity.
  - apply (file_check_placement "./file.txt" "out" false two_files
             "./file.txt" two_files).
    vm_compute; reflexivity.
Defined.


(** C1, refuted as stated: with [a.xyz] missing the batch stops at it;
    [b.xyz], which goes through on its own, is never read, and there is no
    summary. *)
Lemma one_failing_file_stops_the_batch :
  @run_all lenient_core (PyIterable ["a.xyz"; "b.xyz"]) default_config
    "summary.xlsx" "out" false only_b
    = (Raise (FileNotFoundError "a.xyz"), <[ "out" := Dir ]> only_b) ∧
  (<[ "out" := Dir ]> only_b) !! "out/b.xyz.xlsx" = None ∧
  (<[ "out" := Dir ]> only_b) !! "out/summary.xlsx" = None ∧
  (@run_all lenient_core (PyString "b.xyz") default_config
     "summary.xlsx" "out" false only_b).2 !! "out/b.xyz.xlsx"
    = Some (File (Xlsx b_table)).
Proof. split_and!; vm_compute; reflexivity. Qed.

Lemma error_aborts_batch_witness :
  @run_all lenient_core (PyIterable ["b.xyz"; "a.xyz"]) default_config
    "summary.xlsx" "out" false only_b
    = (Raise (FileNotFoundError "a.xyz"), b_done)
  ∧ ∀ q, q ≠ "out/a.xyz.xlsx" → q ≠ "out/a.xyz.html" →
         b_done !! q = b_done !! q.
Proof.
  apply (@error_aborts_batch lenient_core default_config "summary.xlsx" "out"
           false ["b.xyz"] "a.xyz" [] only_b b_done
           (FileNotFoundError "a.xyz") b_done).
  - exists (<[ "out" := Dir ]> only_b), (Some "xlsx", "out/summary.xlsx"),
      (<[ "out" := Dir ]> only_b),
      ([pd.setitem b_table "file" (pd.CStr "b.xyz")],
       Some "figure out/b.xyz.html").
    split_and!; vm_compute; reflexivity.
  - vm_compute; reflexivity.
Defined.

Lemma summary_rows_carry_file_witness :
  ∃ ts out_df,
    length ts = length ["a.xyz"; "b.xyz"] ∧
    (∀ i f t, ["a.xyz"; "b.xyz"] !! i = Some f → ts !! i = Some t →
       ∃ fs_i,
         @reaches lenient_core default_config "summary.xlsx" "out" true
           ["a.xyz"; "b.xyz"] (take i ["a.xyz"; "b.xyz"]) two_files fs_i ∧
         @table_read lenient_core default_config f fs_i t) ∧
    out_df = pd.concat (zip_with tagged ["a.xyz"; "b.xyz"] ts) ∧
    holds_table clean_run.2 "out/summary.xlsx" out_df ∧
    "file" ∈ pd.columns out_df ∧
    pd.rows out_df = mjoin (zip_with tagged_rows ["a.xyz"; "b.xyz"] ts) ∧
    (λ r, pd.cell_at r "file") <$> pd.rows out_df
      = mjoin (zip_with file_cells ["a.xyz"; "b.xyz"] ts) ∧
    ∀ r, r ∈ pd.rows out_df →
         ∃ i f t r0, ["a.xyz"; "b.xyz"] !! i = Some f ∧ ts !! i = Some t ∧
                     r0 ∈ pd.rows t ∧
                     r = <["file" := pd.CStr f]> r0.
Proof.
  apply (@summary_rows_carry_file lenient_core ["a.xyz"; "b.xyz"]
           default_config "summary.xlsx" "out" true two_files None clean_run.2).
  - vm_compute; reflexivity.
  - simpl; lia.
Defined.

Lemma summary_in_input_order_witness :
  ∃ out_df ts,
    holds_table clean_run.2 "out/summary.xlsx" out_df ∧
    Forall2 (@ellipticity_table lenient_core default_config)
      ["a.xyz"; "b.xyz"] ts ∧
    pd.rows out_df = mjoin (zip_with tagged_rows ["a.xyz"; "b.xyz"] ts).
Proof.
  apply (@summary_in_input_order lenient_core ["a.xyz"; "b.xyz"]
           default_config "summary.xlsx" "out" true two_files None clean_run.2).
  - vm_compute; reflexivity.
  - simpl; lia.
Defined.

Example summary_of_clean_run :
  clean_run.2 !! "out/summary.xlsx"
  = Some (File (Xlsx (pd.concat [tagged "a.xyz" a_table; tagged "b.xyz" b_table]))) ∧
  (λ r, pd.cell_at r "file")
    <$> pd.rows (pd.concat [tagged "a.xyz" a_table; tagged "b.xyz" b_table])
  = [pd.CStr "a.xyz"; pd.CStr "b.xyz"].
Proof. split; vm_compute; reflexivity. Qed.



Example second_run_tables :
  stale_output !! "out/a.xyz.xlsx" = Some (File (Raw "stale")) ∧
  second_run.2 !! "out/a.xyz.xlsx" = Some (File (Xlsx a_table)) ∧
  clean_run.2 !! "out/a.xyz.xlsx" = Some (File (Xlsx a_table)) ∧
  second_run.2 !! "out/summary.xlsx" = clean_run.2 !! "out/summary.xlsx".
Proof. split_and!; vm_compute; reflexivity. Qed.

(** C4, refuted as stated: with a core that takes any configuration the
    run on [bad_config] comes through and writes its table; with a core
    that turns [bad_config] down the error comes from the first file, when
    the stale table is gone already and the output directory has been
    made. *)
Lemma invalid_configuration_not_fatal_at_startup :
  invalid bad_config = true ∧
  (@run_all lenient_core (PyString "a.xyz") bad_config "summary.xlsx" "out"
     false two_files).1 = Ok (Some "figure out/a.xyz.html") ∧
  (@run_all lenient_core (PyString "a.xyz") bad_config "summary.xlsx" "out"
     false two_files).2 !! "out/a.xyz.xlsx" = Some (File (Xlsx a_table)) ∧
  @run_all strict_core (PyString "a.xyz") bad_config "summary.xlsx" "out"
    true stale_output
    = (Raise (ValueError "invalid configuration"),
       delete "out/a.xyz.xlsx" stale_output) ∧
  @run_all strict_core (PyString "a.xyz") bad_config "summary.xlsx" "out"
    true two_files
    = (Raise (ValueError "invalid configuration"), <[ "out" := Dir ]> two_files).
Proof. split_and!; vm_compute; reflexivity. Qed.

Lemma configuration_left_to_core_witness :
  @run_all strict_core (PyString "a.xyz") bad_config "summary.xlsx" "out" true
    stale_output
  = @run_all strict_core (PyString "a.xyz")
      {| bond_dist := -(5 # 2); aspect_ratio_filter := 3 # 1;
         oxygen_dist_cutoff := 29 # 10; min_num_carbons := 10;
         max_num_carbons := 20; min_cycle_cc_bond_length := 13 # 10;
         max_cycle_cc_bond_length := 17 # 10 |}
      "summary.xlsx" "out" true stale_output
  ∧ (@run_all strict_core (PyIterable ["a.xyz"]) bad_config "summary.xlsx"
       "out" true stale_output
     = (Raise (ValueError "invalid configuration"),
        delete "out/a.xyz.xlsx" stale_output)
     ∧ delete "out/a.xyz.xlsx" stale_output !! "out" = Some Dir).
Proof.
  split.
  - apply (proj1 (@configuration_left_to_core strict_core "summary.xlsx" "out"
                    true stale_output)).
    intros g n. reflexivity.
  - apply (proj2 (@configuration_left_to_core strict_core "summary.xlsx" "out"
                    true stale_output)
             bad_config "a.xyz" [] stale_output
             "out/a.xyz.xlsx" (delete "out/a.xyz.xlsx" stale_output)
             "out/a.xyz.html" (delete "out/a.xyz.xlsx" stale_output)).
    + exists stale_output, (None, "summary.xlsx"), stale_output, ([], None).
      split_and!; vm_compute; reflexivity.
    + vm_compute; reflexivity.
    + vm_compute; reflexivity.
    + vm_compute; reflexivity.
Defined.

Lemma per_file_table_written_witness :
  ∃ t, @ellipticity_table lenient_core default_config "a.xyz" t ∧
       (@process_file lenient_core default_config "out" false "a.xyz"
          two_files).2 !! "out/a.xyz.xlsx" = Some (File (Xlsx t)) ∧
       pd.setitem a_table "file" (pd.CStr "a.xyz")
         = pd.setitem t "file" (pd.CStr "a.xyz") ∧
       "file" ∈ pd.columns (pd.setitem a_table "file" (pd.CStr "a.xyz")).
Proof.
  apply (@per_file_table_written lenient_core default_config "out" false
           "a.xyz" two_files
           (pd.setitem a_table "file" (pd.CStr "a.xyz"),
            "figure out/a.xyz.html")
           (@process_file lenient_core default_config "out" false "a.xyz"
              two_files).2).
  vm_compute; reflexivity.
Defined.



Lemma existing_output_file_witness :
  (∃ p', (p' = "out/a.xyz.xlsx" ∨ p' = "out/a.xyz.html") ∧
         is_Some (stale_output !! p') ∧
         @run_all lenient_core (PyIterable ["a.xyz"]) default_config
           "summary.xlsx" "out" false stale_output
         = (Raise (FileExistsError (file_exists_msg p')), stale_output)) ∧
  _file_check "a.xyz.xlsx" "out" true stale_output
    = (Ok "out/a.xyz.xlsx", delete "out/a.xyz.xlsx" stale_output).
Proof.
  destruct (@existing_output_file lenient_core default_config "summary.xlsx"
              "out" ["a.xyz"] stale_output) as (_ & Hfile & Hdel & _).
  split.
  - apply (Hfile [] "a.xyz" [] stale_output "out/a.xyz.xlsx" (File (Raw "stale"))).
    + reflexivity.
    + exists stale_output, (None, "summary.xlsx"), stale_output, ([], None).
      split_and!; vm_compute; reflexivity.
    + left. reflexivity.
    + vm_compute; reflexivity.
  - apply (Hdel "a.xyz.xlsx" stale_output (Raw "stale")).
    vm_compute; reflexivity.
Defined.

(** ** The further properties on the sample data *)

Lemma run_all_keeps_directories_witness :
  second_run.2 !! "out" = Some Dir.
Proof.
  apply (@run_all_keeps_directories lenient_core (PyIterable ["a.xyz"; "b.xyz"])
           default_config "summary.xlsx" "out" true stale_output
           second_run.1 second_run.2).
  - vm_compute; reflexivity.
  - vm_compute; reflexivity.
Defined.

Lemma run_all_touches_outputs_only_witness :
  second_run.2 !! "a.xyz" = stale_output !! "a.xyz".
Proof.
  apply (@run_all_touches_outputs_only lenient_core ["a.xyz"; "b.xyz"]
           default_config "summary.xlsx" "out" true stale_output
           second_run.1 second_run.2).
  - vm_compute; reflexivity.
  - vm_compute; reflexivity.
  - intros p Hp. unfold output_paths in Hp. simpl in Hp.
    set_unfold in Hp.
    destruct Hp as [[->|[->|[->|[]]]]|[->|[->|[]]]]; by vm_compute.
Defined.

Lemma no_overwrite_keeps_existing_witness :
  refused_run.2 !! "out/a.xyz.xlsx" = Some (File (Raw "stale")).
Proof.
  apply (@no_overwrite_keeps_existing lenient_core
           (PyIterable ["a.xyz"; "b.xyz"]) default_config "summary.xlsx"
           "out" stale_output refused_run.1 refused_run.2).
  - vm_compute; reflexivity.
  - vm_compute; reflexivity.
Defined.

Lemma output_dir_is_a_file_witness :
  @run_all lenient_core (PyIterable ["a.xyz"]) default_config "summary.xlsx"
    "out" false out_is_file
    = (Raise (FileExistsError (not_a_directory_msg "out")), out_is_file)
  ∧ @run_all lenient_core (PyIterable ["a.xyz"]) default_config "summary.xlsx"
      "out" true out_is_file
    = @run_all lenient_core (PyIterable ["a.xyz"]) default_config
        "summary.xlsx" "out" true (<[ "out" := Dir ]> out_is_file).
Proof.
  apply (@output_dir_is_a_file lenient_core ["a.xyz"] default_config
           "summary.xlsx" "out" out_is_file (Raw "notes")).
  - vm_compute; reflexivity.
  - done.
Defined.

Lemma bad_summary_extension_witness :
  @run_all lenient_core (PyIterable ["a.xyz"; "b.xyz"]) default_config
    "summary.txt" "out" false two_files
    = (Raise (ValueError (summary_extension_msg "summary.txt")),
       <[ "out" := Dir ]> two_files)
  ∧ (<[ "out" := Dir ]> two_files) !! "out" = Some Dir.
Proof.
  apply (@bad_summary_extension lenient_core ["a.xyz"; "b.xyz"] default_config
           "summary.txt" "out" false two_files (<[ "out" := Dir ]> two_files)).
  - simpl; lia.
  - intros Hin. apply elem_of_cons in Hin as [Hin|Hin]; [done|].
    by apply list_elem_of_singleton in Hin.
  - vm_compute; reflexivity.
Defined.

Lemma single_file_ignores_summary_witness :
  @run_all lenient_core (PyIterable ["a.xyz"]) default_config "summary.xlsx"
    "out" false two_files
  = @run_all lenient_core (PyIterable ["a.xyz"]) default_config "notes.txt"
      "out" false two_files.
Proof.
  apply (@single_file_ignores_summary lenient_core ["a.xyz"] default_config
           "summary.xlsx" "notes.txt" "out" false two_files).
  simpl; lia.
Defined.

Lemma run_all_returns_witness :
  @None string = None ↔ (1 < length ["a.xyz"; "b.xyz"])%nat.
Proof.
  apply (@run_all_returns lenient_core ["a.xyz"; "b.xyz"] default_config
           "summary.xlsx" "out" true two_files None clean_run.2).
  vm_compute; reflexivity.
Defined.

Lemma single_file_run_witness :
  ∃ t atom_df pca fig doc,
    @ellipticity_table lenient_core default_config "a.xyz" t ∧
    @render lenient_core atom_df "out/a.xyz.html" pca = Ok (fig, doc) ∧
    Some "figure out/a.xyz.html" = Some fig ∧
    single_run.2 !! "out/a.xyz.xlsx" = Some (File (Xlsx t)) ∧
    single_run.2 !! "out/a.xyz.html" = Some (File (Raw doc)) ∧
    single_run.2 !! "out" = Some Dir.
Proof.
  apply (@single_file_run lenient_core "a.xyz" default_config "summary.xlsx"
           "out" false two_files (Some "figure out/a.xyz.html") single_run.2).
  vm_compute; reflexivity.
Defined.

Lemma output_dir_after_run_witness : clean_run.2 !! "out" = Some Dir.
Proof.
  apply (@output_dir_after_run lenient_core ["a.xyz"; "b.xyz"] default_config
           "summary.xlsx" "out" true two_files None clean_run.2).
  vm_compute; reflexivity.
Defined.

Lemma summary_columns_witness :
  ∃ out_df,
    holds_table clean_run.2 "out/summary.xlsx" out_df ∧
    pd.columns out_df = ["id"; "pca_ellip"] ++ ["file"].
Proof.
  apply (@summary_columns lenient_core ["a.xyz"; "b.xyz"] default_config
           "summary.xlsx" "out" true two_files None clean_run.2
           ["id"; "pca_ellip"]).
  - vm_compute; reflexivity.
  - simpl; lia.
  - intros f t (n & atom_df & pca & _ & He). simpl in He.
    by injection He as <- _.
  - intros Hin. apply elem_of_cons in Hin as [Hin|Hin]; [done|].
    by apply list_elem_of_singleton in Hin.
Defined.

Lemma same_basename_refused_witness :
  @run_all lenient_core (PyIterable ["a.xyz"; "data/a.xyz"]) default_config
    "summary.xlsx" "out" false nested
  = (Raise (FileExistsError (file_exists_msg "out/a.xyz.xlsx")), nested_a_done).
Proof.
  apply (@same_basename_refused lenient_core default_config "summary.xlsx"
           "out" ["a.xyz"] "data/a.xyz" [] "a.xyz" nested nested_a_done).
  - by left.
  - reflexivity.
  - exists (<[ "out" := Dir ]> nested), (Some "xlsx", "out/summary.xlsx"),
      (<[ "out" := Dir ]> nested),
      ([pd.setitem a_table "file" (pd.CStr "a.xyz")],
       Some "figure out/a.xyz.html").
    split_and!; vm_compute; reflexivity.
Defined.

Lemma file_check_twice_witness :
  _file_check "a.xyz.xlsx" "out" false (delete "out/a.xyz.xlsx" stale_output)
  = (Ok "out/a.xyz.xlsx", delete "out/a.xyz.xlsx" stale_output).
Proof.
  apply (file_check_twice "a.xyz.xlsx" "out" true false stale_output).
  vm_compute; reflexivity.
Defined.

Lemma no_overwrite_outputs_are_new_witness :
  two_files !! "out/summary.xlsx" = None.
Proof.
  apply (@no_overwrite_outputs_are_new lenient_core ["a.xyz"; "b.xyz"]
           default_config "summary.xlsx" "out" two_files None
           clean_run_plain.2).
  - vm_compute; reflexivity.
  - by vm_compute.
Defined.

Example outputs_of_nested_input :
  excel_path "data/cb7.xyz" "out" = "out/cb7.xyz.xlsx" ∧
  html_path "/home/user/cb7.xyz" "results/" = "results/cb7.xyz.html".
Proof. by split. Qed.

Lemma plot_failure_leaves_table_witness :
  ∃ fs'',
    @run_all no_plot_core (PyIterable ["a.xyz"]) default_config "summary.xlsx"
      "out" false two_files = (Raise (OtherError "RuntimeError"), fs'') ∧
    fs'' !! "out/a.xyz.xlsx" = Some (File (Xlsx a_table)).
Proof.
  apply (@plot_failure_leaves_table no_plot_core default_config "summary.xlsx"
           "out" false [] "a.xyz" [] two_files (<[ "out" := Dir ]> two_files)
           "out/a.xyz.xlsx" (<[ "out" := Dir ]> two_files)
           "out/a.xyz.html" (<[ "out" := Dir ]> two_files)
           (atoms_of "C 0.0 0.0 0.0") a_table () (OtherError "RuntimeError")).
  - exists (<[ "out" := Dir ]> two_files), (None, "summary.xlsx"),
      (<[ "out" := Dir ]> two_files), ([], None).
    split_and!; vm_compute; reflexivity.
  - vm_compute; reflexivity.
  - vm_compute; reflexivity.
  - vm_compute; reflexivity.
  - vm_compute; reflexivity.
  - vm_compute; reflexivity.
Defined.
